(** * The AI gateway of the cultural-heritage platform

    A shallow embedding of [Backend/controllers/aiController.jsx]: the
    provider selection, the context assembly, the request handlers of the
    AI endpoints and the conversation store they work on. *)

From Stdlib Require Import NArith ZArith QArith_base Ascii String DecimalString.
From stdpp Require Import base option list gmap.

Local Open Scope nat_scope.

(** * JavaScript strings

    A JavaScript string is a sequence of UTF-16 code units; [length],
    [substring], [split] and [trim] all count and cut code units. *)

Module JS.

Definition jsstring := list N.

(** Source literals: every literal of the controller is ASCII. *)
Definition lit (s : string) : jsstring :=
  map N_of_ascii (list_ascii_of_string s).

(** [s.substring(0, n)] *)
Definition substring0 (n : nat) (s : jsstring) : jsstring := take n s.

(** [arr.slice(0, n)] *)
Definition slice0 {A} (n : nat) (l : list A) : list A := take n l.

(** [arr.slice(-n)]: the last [n] elements, all of them when there are
    fewer. *)
Definition slice_last {A} (n : nat) (l : list A) : list A :=
  drop (length l - n) l.

(** [arr.join(sep)] *)
Fixpoint join (sep : jsstring) (l : list jsstring) : jsstring :=
  match l with
  | [] => []
  | [x] => x
  | x :: rest => x ++ sep ++ join sep rest
  end.

(** [s.split(c)] for a separator of one code unit: always at least one
    piece, empty pieces kept. *)
Fixpoint split (c : N) (s : jsstring) : list jsstring :=
  match s with
  | [] => [[]]
  | x :: rest =>
      if N.eqb x c then [] :: split c rest
      else match split c rest with
           | [] => [[x]]
           | piece :: pieces => (x :: piece) :: pieces
           end
  end.

(** ECMAScript WhiteSpace and LineTerminator code points, the ones
    [trim] strips. *)
Definition is_space (c : N) : bool :=
  match c with
  | 0x0009 | 0x000A | 0x000B | 0x000C | 0x000D | 0x0020 | 0x00A0
  | 0x1680 | 0x2000 | 0x2001 | 0x2002 | 0x2003 | 0x2004 | 0x2005
  | 0x2006 | 0x2007 | 0x2008 | 0x2009 | 0x200A | 0x2028 | 0x2029
  | 0x202F | 0x205F | 0x3000 | 0xFEFF => true
  | _ => false
  end%N.

Fixpoint trimStart (s : jsstring) : jsstring :=
  match s with
  | [] => []
  | x :: rest => if is_space x then trimStart rest else s
  end.

Definition trimEnd (s : jsstring) : jsstring := rev (trimStart (rev s)).

(** [s.trim()] *)
Definition trim (s : jsstring) : jsstring := trimEnd (trimStart s).

(** [s.toLowerCase()] on the ASCII letters. Outside ASCII no code unit
    lower-cases to one of the letters of the three provider names the result
    is compared with, so the comparison of [initializeAIService] is
    exact. *)
Definition lower_unit (c : N) : N :=
  if (0x41 <=? c)%N && (c <=? 0x5A)%N then (c + 0x20)%N else c.

Definition toLowerCase (s : jsstring) : jsstring := map lower_unit s.

(** Number to string, for the non-negative integers of the templates. *)
Definition of_nat (n : nat) : jsstring :=
  lit (NilZero.string_of_uint (Nat.to_uint n)).

(** A value that may be [undefined] (or [null]): [None]. *)
Definition truthy (v : option jsstring) : bool :=
  match v with
  | Some (_ :: _) => true
  | _ => false
  end.

(** [v || d] on strings *)
Definition or_else (v : option jsstring) (d : jsstring) : jsstring :=
  match v with
  | Some (c :: s) => c :: s
  | _ => d
  end.

(** A value interpolated in a template literal. *)
Definition interp (v : option jsstring) : jsstring :=
  match v with
  | Some s => s
  | None => lit "undefined"
  end.

Definition eqb (a b : jsstring) : bool := bool_decide (a = b).

(** What a read that should give a string can give: a string, or one of
    the two values that are not one. *)
Inductive jsvalue := Undefined | Null | Str (s : jsstring).

(** Such a value interpolated in a template literal. *)
Definition render (v : jsvalue) : jsstring :=
  match v with
  | Undefined => lit "undefined"
  | Null => lit "null"
  | Str s => s
  end.

End JS.

Arguments JS.lit : simpl never.
Arguments JS.substring0 : simpl never.
Arguments JS.slice_last : simpl never.

Import JS.

Definition comma : N := 0x2C%N.

(** * Tag post-processing of [generateTags] *)

Definition keep_tag (tag : jsstring) : bool :=
  (0 <? length tag) && (length tag <? 50).

Definition parseTags (tagsText : jsstring) : list jsstring :=
  slice0 15 (List.filter keep_tag (map trim (split comma tagsText))).

Definition spec_example : jsstring :=
  lit "Tag1, tag2,, averylongtagthatexceedsfortyninecharacters......, Tag3".


(** * Documents, store and environment *)

Definition Id := nat.
Definition Timestamp := nat.

Inductive Role := user | assistant.

Definition role_name (r : Role) : jsstring :=
  match r with
  | user => lit "user"
  | assistant => lit "assistant"
  end.

(** A message as the controller writes it: [{ role, content }]. The
    content of an assistant message is what the provider dispatch left in
    [aiResponse]: what the vendor's reply held, or [undefined] when no
    branch ran. *)
Record Message := { role : Role; content : jsvalue }.

(** Modelled from the spec: [models/Conversation] is not among the sources.
    "Conversation: id, owner id, title (derived from first question,
    truncated), ordered sequence of Message"; the two times are the columns
    [getConversations] selects. The id is the key of the store. *)
Record ConversationDoc := {
  c_userId : Id;
  c_title : jsstring;
  c_messages : list Message;
  c_createdAt : Timestamp;
  c_updatedAt : Timestamp }.

Inductive EntryStatus := draft | published | archived.

#[global] Instance EntryStatus_eq_dec : EqDecision EntryStatus.
Proof. solve_decision. Defined.

Record Location := {
  l_name : option jsstring;
  l_country : option jsstring;
  l_region : option jsstring }.

(** Modelled from the spec: [models/Entry] is not among the sources.
    "ReferenceDocument: title, description, culturalContext, category,
    location-country", with the further fields the handlers read; title,
    description and category are the columns the schema declares NOT NULL. *)
Record EntryDoc := {
  e_id : Id;
  e_title : jsstring;
  e_description : jsstring;
  e_category : jsstring;
  e_culturalContext : option jsstring;
  e_historicalPeriod : option jsstring;
  e_location : option Location;
  e_tags : list jsstring;
  e_author : Id;
  e_status : EntryStatus;
  e_isPublic : bool }.

Record UserDoc := { u_id : Id; u_username : jsstring }.

(** The persistent store. Conversations are keyed by id; entries keep the
    order in which a query returns them. *)
Record Store := {
  entries : list EntryDoc;
  conversations : gmap Id ConversationDoc;
  users : list UserDoc }.

(** An error object, with the two properties the handlers inspect. *)
Record JsError := {
  err_code : option jsstring;
  err_status : option N;
  err_message : jsstring }.

Definition TypeError (msg : string) : JsError :=
  {| err_code := None; err_status := None; err_message := lit msg |}.

(** [process.env] *)
Record Env := {
  AI_PROVIDER : option jsstring;
  OPENAI_MODEL : option jsstring;
  ANTHROPIC_MODEL : option jsstring;
  GOOGLE_MODEL : option jsstring;
  NODE_ENV : option jsstring }.

Inductive Vendor := OpenAI | Anthropic | GoogleGenerativeAI.

#[global] Instance Vendor_eq_dec : EqDecision Vendor.
Proof. solve_decision. Defined.

(** The three vendor calls, with the arguments the handlers pass. *)
Inductive AdapterCall :=
| chat_completions_create (model : jsstring)
    (messages : list (jsstring * jsstring)) (max_tokens : Z) (temperature : Q)
| messages_create (model : jsstring) (max_tokens : Z) (temperature : Q)
    (system : jsstring) (messages : list (jsstring * jsstring))
| generateContent (model : jsstring) (parts : list jsstring).

Definition call_vendor (c : AdapterCall) : Vendor :=
  match c with
  | chat_completions_create _ _ _ _ => OpenAI
  | messages_create _ _ _ _ _ => Anthropic
  | generateContent _ _ => GoogleGenerativeAI
  end.

(** The error of reaching for the method of a call on a client that does
    not have it: [aiService.chat] and [aiService.messages] are [undefined]
    there, [aiService.getGenerativeModel] is not a function. *)
Definition no_such_method (c : AdapterCall) : JsError :=
  match c with
  | chat_completions_create _ _ _ _ =>
      TypeError "Cannot read properties of undefined (reading 'completions')"
  | messages_create _ _ _ _ _ =>
      TypeError "Cannot read properties of undefined (reading 'create')"
  | generateContent _ _ =>
      TypeError "this.aiService.getGenerativeModel is not a function"
  end.

(** The operations the handlers run on the store. *)
Inductive DbOp :=
| Entry_find (author : Id) (status : EntryStatus) (limit : nat)
| Entry_findById (id : Id) (populate : bool)
| Conversation_findOne (id userId : Id)
| Conversation_save (doc : ConversationDoc)
| Conversation_findByIdAndUpdate (id : Id) (push : list Message) (updatedAt : Timestamp)
| Conversation_findOneAndDelete (id userId : Id).

Definition is_write (op : DbOp) : bool :=
  match op with
  | Conversation_save _
  | Conversation_findByIdAndUpdate _ _ _
  | Conversation_findOneAndDelete _ _ => true
  | _ => false
  end.

Inductive LogArg := LogError (e : JsError) | LogText (s : jsstring).

Inductive LogLine :=
| console_warn (text : jsstring) (args : list LogArg)
| console_error (text : jsstring) (args : list LogArg).

(** What lies outside the controller during one request: the environment,
    the vendor's answer to a call (what the handler reads from the reply,
    [choices[0].message.content] or [content[0].text], which the reply may
    hold as a string, as [null] or not at all; or the error that the call or
    the read raises), the store operations that fail, and the clock. *)
Record World := {
  env : Env;
  generate : AdapterCall -> JsError + jsvalue;
  db_fault : DbOp -> option JsError;
  now : Timestamp }.

(** * The handler monad

    A handler threads the store and records what it does: the store
    operations it issues, the vendor calls it makes and the console lines
    it writes. It ends with a value or with a thrown error; the effects of a
    handler that throws stay. *)

Record State := {
  store : Store;
  trace : list DbOp;
  calls : list AdapterCall;
  console : list LogLine }.

Definition initial (s : Store) : State :=
  {| store := s; trace := []; calls := []; console := [] |}.

Definition Handler (A : Type) : Type := State -> (JsError + A) * State.

Definition ret {A} (a : A) : Handler A := fun st => (inr a, st).

Definition throw {A} (e : JsError) : Handler A := fun st => (inl e, st).

Definition bind {A B} (m : Handler A) (k : A -> Handler B) : Handler B :=
  fun st =>
    match m st with
    | (inr a, st') => k a st'
    | (inl e, st') => (inl e, st')
    end.

(** [try { m } catch (e) { h e }] *)
Definition try_catch {A} (m : Handler A) (h : JsError -> Handler A) : Handler A :=
  fun st =>
    match m st with
    | (inr a, st') => (inr a, st')
    | (inl e, st') => h e st'
    end.

Declare Scope handler_scope.
Delimit Scope handler_scope with handler.
Bind Scope handler_scope with Handler.
Notation "x <- m ;; k" := (bind m (fun x => k))
  (at level 100, m at next level, right associativity) : handler_scope.
Notation "m ;;; k" := (bind m (fun _ => k))
  (at level 100, right associativity) : handler_scope.
Local Open Scope handler_scope.

Definition log (l : LogLine) : Handler unit :=
  fun st =>
    (inr tt, {| store := store st; trace := trace st; calls := calls st;
                console := console st ++ [l] |}).

Section Effects.
Variable w : World.

(** A store operation: recorded, then failed or run. *)
Definition db {A} (op : DbOp) (run : Store -> A * Store) : Handler A :=
  fun st =>
    let tr := trace st ++ [op] in
    match db_fault w op with
    | Some e =>
        (inl e, {| store := store st; trace := tr; calls := calls st;
                   console := console st |})
    | None =>
        let (a, s') := run (store st) in
        (inr a, {| store := s'; trace := tr; calls := calls st;
                   console := console st |})
    end.

(** A vendor call on the client object the controller holds. The method
    of a call is not there on the client of another vendor: reaching for it
    throws. *)
Definition invoke (client : Vendor) (c : AdapterCall) : Handler jsvalue :=
  fun st =>
    if bool_decide (client = call_vendor c) then
      (generate w c,
       {| store := store st; trace := trace st; calls := calls st ++ [c];
          console := console st |})
    else (inl (no_such_method c), st).
End Effects.

(** * The models

    [Entry] and [Conversation] with the queries the controller issues. *)

Module Entry.

(** The documents a query [{ author, status }] with [.limit(n)] returns. *)
Definition select (author : Id) (status : EntryStatus) (limit : nat) (s : Store)
  : list EntryDoc :=
  take limit
    (List.filter
       (fun e => bool_decide (e_author e = author)
                 && bool_decide (e_status e = status))
       (entries s)).

(** [Entry.find({ author, status }).limit(n)] *)
Definition find (w : World) (author : Id) (status : EntryStatus) (limit : nat)
  : Handler (list EntryDoc) :=
  db w (Entry_find author status limit) (fun s => (select author status limit s, s)).

Definition lookup (id : Id) (s : Store) : option EntryDoc :=
  List.find (fun e => bool_decide (e_id e = id)) (entries s).

(** [Entry.findById(id)] *)
Definition findById (w : World) (id : Id) : Handler (option EntryDoc) :=
  db w (Entry_findById id false) (fun s => (lookup id s, s)).

(** [Entry.findById(id).populate("author", "username")]: the entry
    together with the user document its author field refers to, when that
    user exists. *)
Definition findById_populate (w : World) (id : Id)
  : Handler (option (EntryDoc * option UserDoc)) :=
  db w (Entry_findById id true)
    (fun s =>
       (match lookup id s with
        | Some e =>
            Some (e, List.find (fun u => bool_decide (u_id u = e_author e))
                       (users s))
        | None => None
        end,
        s)).

End Entry.

Module Conversation.

Definition lookup (id userId : Id) (s : Store) : option ConversationDoc :=
  match conversations s !! id with
  | Some c => if bool_decide (c_userId c = userId) then Some c else None
  | None => None
  end.

(** [Conversation.findOne({ _id, userId })] *)
Definition findOne (w : World) (id userId : Id)
  : Handler (option ConversationDoc) :=
  db w (Conversation_findOne id userId) (fun s => (lookup id userId s, s)).

(** [new Conversation(doc).save()]: stored under an id no conversation
    has; the result is the saved document's id. *)
Definition save (w : World) (doc : ConversationDoc) : Handler Id :=
  db w (Conversation_save doc)
    (fun s =>
       let id := fresh (dom (conversations s)) in
       (id,
        {| entries := entries s;
           conversations := <[id := doc]> (conversations s);
           users := users s |})).

Definition push (msgs : list Message) (t : Timestamp) (c : ConversationDoc)
  : ConversationDoc :=
  {| c_userId := c_userId c;
     c_title := c_title c;
     c_messages := c_messages c ++ msgs;
     c_createdAt := c_createdAt c;
     c_updatedAt := t |}.

(** [Conversation.findByIdAndUpdate(id, { $push: { messages: { $each } },
    $set: { updatedAt } })]: the conversation with that id, whoever owns
    it; nothing happens when there is none. *)
Definition findByIdAndUpdate (w : World) (id : Id) (msgs : list Message)
    (t : Timestamp) : Handler unit :=
  db w (Conversation_findByIdAndUpdate id msgs t)
    (fun s =>
       (tt,
        {| entries := entries s;
           conversations := alter (push msgs t) id (conversations s);
           users := users s |})).

(** [Conversation.findOneAndDelete({ _id, userId })] *)
Definition findOneAndDelete (w : World) (id userId : Id)
  : Handler (option ConversationDoc) :=
  db w (Conversation_findOneAndDelete id userId)
    (fun s =>
       match lookup id userId s with
       | Some c =>
           (Some c,
            {| entries := entries s;
               conversations := delete id (conversations s);
               users := users s |})
       | None => (None, s)
       end).

End Conversation.

(** * The controller *)

Record AIController := { aiService : option Vendor }.

(** [initializeAIService]: [sdk v] is the error that loading or
    constructing the client of [v] raises, if it does. The result is the
    client and what the function writes to the console. *)
Definition initializeAIService (e : Env) (sdk : Vendor -> option JsError)
  : option Vendor * list LogLine :=
  let aiProvider := or_else (AI_PROVIDER e) (lit "openai") in
  let construct v :=
    match sdk v with
    | None => (Some v, [])
    | Some error =>
        (None,
         [console_error (lit "Failed to initialize AI service:")
            [LogText (err_message error)]])
    end in
  let name := toLowerCase aiProvider in
  if eqb name (lit "openai") then construct OpenAI
  else if eqb name (lit "anthropic") then construct Anthropic
  else if eqb name (lit "google") then construct GoogleGenerativeAI
  else (None,
        [console_warn (lit "No AI provider configured or unsupported provider") []]).

(** [new AIController()] *)
Definition new_AIController (e : Env) (sdk : Vendor -> option JsError)
  : AIController :=
  {| aiService := fst (initializeAIService e sdk) |}.

(** ** Requests and responses *)

Record ReqUser := { userId : Id; user_role : jsstring }.

(** One element of [validationResult(req).array()]. *)
Record ValidationError := { ve_path : jsstring; ve_msg : jsstring }.

(** [POST /ai/ask]: the validation result, the authenticated user and the
    body. A falsy [conversationId] is [None]. *)
Record AskRequest := {
  ask_errors : list ValidationError;
  ask_user : ReqUser;
  question : jsstring;
  context : option jsstring;
  includeEntries : bool;
  conversationId : option Id;
  temperature : option Q;
  maxTokens : option Z }.

Record TagsRequest := {
  tags_errors : list ValidationError;
  t_title : option jsstring;
  t_description : option jsstring;
  t_culturalContext : option jsstring;
  t_category : option jsstring;
  t_location : option Location }.

(** The requests that carry an id in the path. *)
Record IdRequest := { id_user : ReqUser; param_id : Id }.

Record Features := {
  questionsAndAnswers : bool;
  conversationHistory : bool;
  entrySuggestions : bool;
  tagGeneration : bool;
  culturalAnalysis : bool }.

Inductive Body :=
| Failure (message : jsstring) (errors : option (list ValidationError))
    (error : option jsstring)
| AskData (question : jsstring) (answer : jsvalue) (conversationId : Id)
    (timestamp : Timestamp) (provider model : jsstring)
| SuggestionsData (entryId : Id) (entryTitle : jsstring)
    (suggestions : jsvalue) (timestamp : Timestamp)
| TagsData (tags : list jsstring) (count : nat) (timestamp : Timestamp)
| AnalysisData (entryId : Id) (entryTitle : jsstring)
    (analysis : jsvalue) (timestamp : Timestamp)
| ConversationData (id : Id) (conversation : ConversationDoc)
| Deleted (message : jsstring)
| StatusData (available : bool) (provider model : jsstring) (features : Features).

Record Response := { status : nat; body : Body }.

(** [res.status(n).json({ success: false, message })] *)
Definition fail (n : nat) (message : string) : Response :=
  {| status := n; body := Failure (lit message) None None |}.

(** [res.json(data)] *)
Definition ok (data : Body) : Response := {| status := 200; body := data |}.

Definition nl : jsstring := [10%N].

(** ** Prompts *)

Definition systemPrompt : jsstring :=
  lit "You are a knowledgeable assistant specializing in cultural heritage, history, anthropology, and cultural preservation. 

    Your expertise includes:
    - World cultural practices and traditions
    - Historical contexts and evolution of cultures
    - Indigenous knowledge and wisdom
    - Cultural artifacts and their significance
    - Preservation techniques and best practices
    - Ethical considerations in cultural documentation

    Guidelines:
    1. Provide accurate, respectful, and educational responses
    2. Acknowledge cultural diversity and complexity
    3. Emphasize the importance of cultural preservation
    4. Respect indigenous knowledge and cultural ownership
    5. Encourage proper permissions and ethical practices
    6. Cite sources when possible
    7. Admit uncertainty rather than speculate
    8. Be sensitive to cultural appropriation concerns".

(** The text the prompt holds for each replayed message. *)
Definition history_line (msg : Message) : jsstring :=
  role_name (role msg) ++ lit ": " ++ render (content msg).

Definition userPrompt (question : jsstring) (context : option jsstring)
    (entryContext : jsstring) (conversationHistory : list Message) : jsstring :=
  lit "Question: "
  ++ question
  ++ lit "

    "
  ++ (if truthy context then lit "Additional context: " ++ interp context else [])
  ++ entryContext
  ++ lit "

    "
  ++ (if 0 <? length conversationHistory
      then nl ++ lit "Previous conversation:" ++ nl
           ++ join nl (map history_line conversationHistory)
      else [])
  ++ lit "

    Please provide a comprehensive, educational response about this cultural heritage topic.".

Definition location_field (f : Location -> option jsstring)
    (location : option Location) : option jsstring :=
  match location with
  | Some l => f l
  | None => None
  end.

Definition suggestionsPrompt (entry : EntryDoc) : jsstring :=
  lit "Analyze this cultural heritage entry and provide actionable suggestions for enhancement:

    Title: "
  ++ e_title entry
  ++ lit "
    Description: "
  ++ e_description entry
  ++ lit "
    Category: "
  ++ e_category entry
  ++ lit "
    Cultural Context: "
  ++ or_else (e_culturalContext entry) (lit "Not provided")
  ++ lit "
    Historical Period: "
  ++ or_else (e_historicalPeriod entry) (lit "Not provided")
  ++ lit "
    Location: "
  ++ or_else (location_field l_name (e_location entry)) (lit "Not provided")
  ++ lit ", "
  ++ or_else (location_field l_country (e_location entry)) (lit "Unknown")
  ++ lit "
    Current Tags: "
  ++ or_else (Some (join (lit ", ") (e_tags entry))) (lit "None")
  ++ lit "

    Please provide specific, actionable suggestions in the following areas:

    1. DESCRIPTION IMPROVEMENTS:
    - What details could enhance the description?
    - What aspects are missing?

    2. CULTURAL CONTEXT:
    - What additional cultural information should be included?
    - What cultural connections could be explored?

    3. RECOMMENDED TAGS:
    - Suggest 5-8 relevant tags that are missing

    4. RESEARCH QUESTIONS:
    - What questions should be investigated further?
    - What sources should be consulted?

    5. RELATED TOPICS:
    - What related cultural elements should be documented?
    - What connections to other cultures exist?

    Format your response clearly with bullet points under each section.".

Definition tagsPrompt (title description culturalContext category : option jsstring)
    (location : option Location) : jsstring :=
  lit "Generate relevant, specific tags for this cultural heritage entry. Return ONLY a comma-separated list of 10-15 tags.

    Title: "
  ++ interp title
  ++ lit "
    Description: "
  ++ interp description
  ++ lit "
    Category: "
  ++ interp category
  ++ lit "
    Cultural Context: "
  ++ or_else culturalContext (lit "Not provided")
  ++ lit "
    Location: "
  ++ or_else (location_field l_country location) (lit "Not provided")
  ++ lit "

    Requirements:
    - Focus on cultural aspects, practices, and traditions
    - Include historical periods if relevant
    - Add geographic/regional identifiers
    - Include material types and techniques
    - Add social and community aspects
    - Use specific, searchable terms
    - Avoid generic tags

    Return format: tag1, tag2, tag3, ...".

Definition analysisPrompt (entry : EntryDoc) : jsstring :=
  lit "Provide a comprehensive analysis of the cultural significance of this heritage entry:

    Title: "
  ++ e_title entry
  ++ lit "
    Description: "
  ++ e_description entry
  ++ lit "
    Category: "
  ++ e_category entry
  ++ lit "
    Cultural Context: "
  ++ or_else (e_culturalContext entry) (lit "Not provided")
  ++ lit "
    Historical Period: "
  ++ or_else (e_historicalPeriod entry) (lit "Not provided")
  ++ lit "
    Location: "
  ++ or_else (location_field l_name (e_location entry)) (lit "Not provided")
  ++ lit ", "
  ++ or_else (location_field l_country (e_location entry)) (lit "Unknown")
  ++ lit "
    Region: "
  ++ or_else (location_field l_region (e_location entry)) (lit "Unknown")
  ++ lit "

    Please provide a detailed analysis covering:

    1. CULTURAL IMPORTANCE
    - What makes this culturally significant?
    - What values or beliefs does it represent?

    2. HISTORICAL CONTEXT
    - How has this evolved over time?
    - What historical events influenced it?

    3. SOCIAL SIGNIFICANCE
    - How does it impact the community?
    - What role does it play in society?

    4. PRESERVATION CHALLENGES
    - What threatens its continuation?
    - What preservation efforts are needed?

    5. EDUCATIONAL VALUE
    - What can we learn from this?
    - How can this knowledge be shared?

    6. CONTEMPORARY RELEVANCE
    - How is it relevant today?
    - How is it adapting to modern times?

    Provide a thoughtful, respectful analysis that honors the cultural sensitivity of the subject.".

(** ** Context assembly *)

(** What the [forEach] of [askQuestion] appends for the entry at [index]. *)
Definition entryLines (index : nat) (entry : EntryDoc) : jsstring :=
  of_nat (index + 1) ++ lit ". " ++ e_title entry
  ++ lit " (" ++ e_category entry ++ lit ")" ++ nl
  ++ lit "   Description: " ++ substring0 200 (e_description entry)
  ++ lit "..." ++ nl
  ++ (if truthy (e_culturalContext entry)
      then lit "   Cultural Context: "
           ++ substring0 150 (interp (e_culturalContext entry))
           ++ lit "..." ++ nl
      else [])
  ++ (if truthy (location_field l_country (e_location entry))
      then lit "   Location: "
           ++ interp (location_field l_country (e_location entry)) ++ nl
      else []).

Definition entryContextOf (userEntries : list EntryDoc) : jsstring :=
  if 0 <? length userEntries
  then nl ++ nl ++ lit "Relevant cultural entries from your collection:" ++ nl
       ++ concat (imap entryLines userEntries)
  else [].

(** The entry context of a request. [Entry.find] is the one statement of
    the guarded block that can throw, and it runs before the block has
    written to [entryContext]. *)
Definition assembleEntries (w : World) (includeEntries : bool) (uid : Id)
  : Handler jsstring :=
  if includeEntries then
    try_catch
      (userEntries <- Entry.find w uid published 5 ;;
       ret (entryContextOf userEntries))
      (fun entryError =>
         log (console_warn (lit "Failed to fetch user entries for context:")
                [LogError entryError]) ;;;
         ret [])
  else ret [].

(** The replayed history of a request. *)
Definition assembleHistory (w : World) (conversationId : option Id) (uid : Id)
  : Handler (list Message) :=
  match conversationId with
  | Some cid =>
      conversation <- Conversation.findOne w cid uid ;;
      ret (match conversation with
           | Some c => slice_last 5 (c_messages c)
           | None => []
           end)
  | None => ret []
  end.

(** ** [askQuestion] *)

Definition model_name (e : Env) : jsstring :=
  or_else (OPENAI_MODEL e)
    (or_else (ANTHROPIC_MODEL e) (or_else (GOOGLE_MODEL e) (lit "default"))).

Definition code_is (error : JsError) (c : string) : bool :=
  bool_decide (err_code error = Some (lit c)).

Definition status_is (error : JsError) (n : N) : bool :=
  bool_decide (err_status error = Some n).

(** The [catch] block of [askQuestion], after its [console.error]. *)
Definition askQuestion_error (e : Env) (error : JsError) : Response :=
  if code_is error "insufficient_quota" || status_is error 429 then
    fail 503 "AI service quota exceeded. Please try again later."
  else if code_is error "rate_limit_exceeded" || status_is error 429 then
    fail 429 "Too many requests. Please wait before trying again."
  else if code_is error "context_length_exceeded" then
    fail 400 "Question or context is too long. Please shorten your input."
  else
    {| status := 500;
       body := Failure (lit "Internal server error while processing AI request")
                 None
                 (if bool_decide (NODE_ENV e = Some (lit "development"))
                  then Some (err_message error) else None) |}.

Definition provider_name (e : Env) : jsstring :=
  or_else (AI_PROVIDER e) (lit "openai").

(** The provider dispatch of [askQuestion]: [aiResponse] is what the call
    of the branch gives, and stays [undefined] when no branch runs. *)
Definition askDispatch (w : World) (client : Vendor)
    (userPrompt : jsstring) (maxTokens : Z) (temperature : Q)
  : Handler jsvalue :=
  let aiProvider := provider_name (env w) in
  if eqb aiProvider (lit "openai") then
    content <- invoke w client
      (chat_completions_create
         (or_else (OPENAI_MODEL (env w)) (lit "gpt-3.5-turbo"))
         [(lit "system", systemPrompt); (lit "user", userPrompt)]
         maxTokens temperature) ;;
    ret content
  else if eqb aiProvider (lit "anthropic") then
    content <- invoke w client
      (messages_create
         (or_else (ANTHROPIC_MODEL (env w)) (lit "claude-3-sonnet-20240229"))
         maxTokens temperature systemPrompt [(lit "user", userPrompt)]) ;;
    ret content
  else if eqb aiProvider (lit "google") then
    content <- invoke w client
      (generateContent (or_else (GOOGLE_MODEL (env w)) (lit "gemini-pro"))
         [systemPrompt; userPrompt]) ;;
    ret content
  else ret Undefined.

Definition exchange (question : jsstring) (aiResponse : jsvalue)
  : list Message :=
  [ {| role := user; content := Str question |};
    {| role := assistant; content := aiResponse |} ].

(** The "Save conversation history" step. *)
Definition saveExchange (w : World) (conversationId : option Id) (uid : Id)
    (question : jsstring) (aiResponse : jsvalue) : Handler Id :=
  match conversationId with
  | None =>
      Conversation.save w
        {| c_userId := uid;
           c_title := substring0 100 question;
           c_messages := exchange question aiResponse;
           c_createdAt := now w;
           c_updatedAt := now w |}
  | Some cid =>
      Conversation.findByIdAndUpdate w cid (exchange question aiResponse) (now w) ;;;
      ret cid
  end.

Definition askQuestion (this : AIController) (w : World) (req : AskRequest)
  : Handler Response :=
  try_catch
    (if negb (bool_decide (ask_errors req = [])) then
       ret {| status := 400;
              body := Failure (lit "Validation failed") (Some (ask_errors req)) None |}
     else
       let temperature := default (7 # 10)%Q (temperature req) in
       let maxTokens := default 1000%Z (maxTokens req) in
       match aiService this with
       | None => ret (fail 503 "AI service not available. Please check configuration.")
       | Some client =>
           entryContext <-
             assembleEntries w (includeEntries req) (userId (ask_user req)) ;;
           conversationHistory <-
             assembleHistory w (conversationId req) (userId (ask_user req)) ;;
           aiResponse <-
             askDispatch w client
               (userPrompt (question req) (context req) entryContext
                  conversationHistory)
               maxTokens temperature ;;
           newConversationId <-
             saveExchange w (conversationId req) (userId (ask_user req))
               (question req) aiResponse ;;
           ret (ok (AskData (question req) aiResponse newConversationId (now w)
                      (provider_name (env w)) (model_name (env w))))
       end)
    (fun error =>
       log (console_error (lit "AI question error:") [LogError error]) ;;;
       ret (askQuestion_error (env w) error)).

(** ** The single-shot variants *)

(** The provider dispatch the three variants share: a branch for "openai"
    and one for "anthropic", and no other. *)
Definition generateText (w : World) (client : Vendor) (openai_default : string)
    (system prompt : jsstring) (max_tokens : Z) (temperature : Q)
  : Handler jsvalue :=
  let aiProvider := provider_name (env w) in
  if eqb aiProvider (lit "openai") then
    content <- invoke w client
      (chat_completions_create
         (or_else (OPENAI_MODEL (env w)) (lit openai_default))
         [(lit "system", system); (lit "user", prompt)]
         max_tokens temperature) ;;
    ret content
  else if eqb aiProvider (lit "anthropic") then
    content <- invoke w client
      (messages_create
         (or_else (ANTHROPIC_MODEL (env w)) (lit "claude-3-sonnet-20240229"))
         max_tokens temperature system [(lit "user", prompt)]) ;;
    ret content
  else ret Undefined.

Definition is_admin (u : ReqUser) : bool := eqb (user_role u) (lit "admin").

Definition suggestionsSystem : jsstring :=
  lit "You are an expert in cultural heritage documentation and preservation. Provide helpful, specific, and respectful suggestions for improving cultural entries.".

Definition getEntrySuggestions (this : AIController) (w : World) (req : IdRequest)
  : Handler Response :=
  try_catch
    (let id := param_id req in
     found <- Entry.findById w id ;;
     match found with
     | None => ret (fail 404 "Cultural entry not found")
     | Some entry =>
         let canAccess :=
           bool_decide (e_author entry = userId (id_user req))
           || e_isPublic entry || is_admin (id_user req) in
         if negb canAccess then ret (fail 403 "Access denied to this entry")
         else
           match aiService this with
           | None => ret (fail 503 "AI service not available")
           | Some client =>
               suggestions <-
                 generateText w client "gpt-3.5-turbo" suggestionsSystem
                   (suggestionsPrompt entry) 1200 (6 # 10)%Q ;;
               ret (ok (SuggestionsData id (e_title entry) suggestions (now w)))
           end
     end)
    (fun error =>
       log (console_error (lit "Get entry suggestions error:") [LogError error]) ;;;
       ret (fail 500 "Internal server error while generating suggestions")).

Definition tagsSystem : jsstring :=
  lit "You are an expert in cultural heritage taxonomy. Generate relevant, specific tags for cultural entries. Return only the comma-separated list of tags, nothing else.".

Definition generateTags (this : AIController) (w : World) (req : TagsRequest)
  : Handler Response :=
  try_catch
    (if negb (bool_decide (tags_errors req = [])) then
       ret {| status := 400;
              body := Failure (lit "Validation failed") (Some (tags_errors req)) None |}
     else
       match aiService this with
       | None => ret (fail 503 "AI service not available")
       | Some client =>
           tagsText <-
             generateText w client "gpt-3.5-turbo" tagsSystem
               (tagsPrompt (t_title req) (t_description req)
                  (t_culturalContext req) (t_category req) (t_location req))
               200 (5 # 10)%Q ;;
           match tagsText with
           | Undefined =>
               throw (TypeError "Cannot read properties of undefined (reading 'split')")
           | Null =>
               throw (TypeError "Cannot read properties of null (reading 'split')")
           | Str text =>
               let tags := parseTags text in
               ret (ok (TagsData tags (length tags) (now w)))
           end
       end)
    (fun error =>
       log (console_error (lit "Generate tags error:") [LogError error]) ;;;
       ret (fail 500 "Internal server error while generating tags")).

Definition analysisSystem : jsstring :=
  lit "You are a cultural anthropologist and heritage expert. Provide insightful, respectful, and comprehensive analysis of cultural significance. Be thorough but concise.".

Definition analyzeCulturalSignificance (this : AIController) (w : World)
    (req : IdRequest) : Handler Response :=
  try_catch
    (let id := param_id req in
     found <- Entry.findById_populate w id ;;
     match found with
     | None => ret (fail 404 "Cultural entry not found")
     | Some (entry, None) =>
         throw (TypeError "Cannot read properties of null (reading '_id')")
     | Some (entry, Some author) =>
         let canAccess :=
           bool_decide (u_id author = userId (id_user req))
           || e_isPublic entry || is_admin (id_user req) in
         if negb canAccess then ret (fail 403 "Access denied to this entry")
         else
           match aiService this with
           | None => ret (fail 503 "AI service not available")
           | Some client =>
               analysis <-
                 generateText w client "gpt-4-turbo-preview" analysisSystem
                   (analysisPrompt entry) 1500 (7 # 10)%Q ;;
               ret (ok (AnalysisData id (e_title entry) analysis (now w)))
           end
     end)
    (fun error =>
       log (console_error (lit "Analyze cultural significance error:")
              [LogError error]) ;;;
       ret (fail 500 "Internal server error while analyzing cultural significance")).

(** ** Conversations *)

Definition getConversationById (w : World) (req : IdRequest) : Handler Response :=
  try_catch
    (let id := param_id req in
     conversation <- Conversation.findOne w id (userId (id_user req)) ;;
     match conversation with
     | None => ret (fail 404 "Conversation not found")
     | Some c => ret (ok (ConversationData id c))
     end)
    (fun error =>
       log (console_error (lit "Get conversation error:") [LogError error]) ;;;
       ret (fail 500 "Internal server error while fetching conversation")).

Definition deleteConversation (w : World) (req : IdRequest) : Handler Response :=
  try_catch
    (let id := param_id req in
     conversation <- Conversation.findOneAndDelete w id (userId (id_user req)) ;;
     match conversation with
     | None => ret (fail 404 "Conversation not found")
     | Some _ => ret (ok (Deleted (lit "Conversation deleted successfully")))
     end)
    (fun error =>
       log (console_error (lit "Delete conversation error:") [LogError error]) ;;;
       ret (fail 500 "Internal server error while deleting conversation")).

(** ** Service status *)

Definition getServiceStatus (this : AIController) (w : World) : Handler Response :=
  try_catch
    (let isAvailable := bool_decide (aiService this <> None) in
     let provider := or_else (AI_PROVIDER (env w)) (lit "none") in
     ret (ok (StatusData isAvailable provider (model_name (env w))
                {| questionsAndAnswers := isAvailable;
                   conversationHistory := isAvailable;
                   entrySuggestions := isAvailable;
                   tagGeneration := isAvailable;
                   culturalAnalysis := isAvailable |})))
    (fun error =>
       log (console_error (lit "Get AI service status error:") [LogError error]) ;;;
       ret (fail 500 "Internal server error while checking service status")).

(** Running a handler on a store: the response and the final state. A
    handler of the controller always ends in a response, its [catch] block
    does not throw. *)
Definition run (h : Handler Response) (s : Store) : (JsError + Response) * State :=
  h (initial s).

(** * Notions the properties are stated with *)

Definition starts_with_space (s : jsstring) : Prop :=
  match head s with Some x => is_space x = true | None => False end.

Definition ends_with_space (s : jsstring) : Prop :=
  match last s with Some x => is_space x = true | None => False end.

(** The tag rule in the words of the specification: of the trimmed tokens,
    those that are not empty and not longer than 49, the first 15. *)
Definition tags_of_tokens (tokens : list jsstring) : list jsstring :=
  take 15 (filter (fun t => t <> [] /\ length t <= 49) (map trim tokens)).

(** The user prompt a vendor call carries: the content of its last
    message, or its last part. *)
Definition call_prompt (c : AdapterCall) : option jsstring :=
  match c with
  | chat_completions_create _ messages _ _ => snd <$> last messages
  | messages_create _ _ _ _ messages => snd <$> last messages
  | generateContent _ parts => last parts
  end.

(** The history a request replays, read off the store. *)
Definition replayed (req : AskRequest) (s : Store) : list Message :=
  match conversationId req with
  | Some cid =>
      match Conversation.lookup cid (userId (ask_user req)) s with
      | Some c => slice_last 5 (c_messages c)
      | None => []
      end
  | None => []
  end.

(** The entry context of a request, read off the store. *)
Definition referenced (w : World) (req : AskRequest) (s : Store) : jsstring :=
  if includeEntries req then
    match db_fault w (Entry_find (userId (ask_user req)) published 5) with
    | Some _ => []
    | None => entryContextOf (Entry.select (userId (ask_user req)) published 5 s)
    end
  else [].

(** An entry with its two free-text fields cut to their budgets. *)
Definition truncated (e : EntryDoc) : EntryDoc :=
  {| e_id := e_id e;
     e_title := e_title e;
     e_description := substring0 200 (e_description e);
     e_category := e_category e;
     e_culturalContext := substring0 150 <$> e_culturalContext e;
     e_historicalPeriod := e_historicalPeriod e;
     e_location := e_location e;
     e_tags := e_tags e;
     e_author := e_author e;
     e_status := e_status e;
     e_isPublic := e_isPublic e |}.

(** Two states that differ by what was already written to the trace and
    to the console. *)
Definition extends (ops : list DbOp) (lines : list LogLine) (st st' : State) : Prop :=
  store st = store st' /\ calls st = calls st'
  /\ trace st = ops ++ trace st' /\ console st = lines ++ console st'.

(** A handler that never reads the trace or the console: from two such
    states it ends alike, in two such states. *)
Definition framed {A} (h : Handler A) : Prop :=
  forall ops lines st st',
    extends ops lines st st' ->
    fst (h st) = fst (h st') /\ extends ops lines (snd (h st)) (snd (h st')).

(** * Sample data *)

Definition env_of (provider : string) : Env :=
  {| AI_PROVIDER := Some (lit provider);
     OPENAI_MODEL := None;
     ANTHROPIC_MODEL := None;
     GOOGLE_MODEL := None;
     NODE_ENV := Some (lit "production") |}.

(** A world in which every vendor call answers and no store operation
    fails. *)
Definition calm (provider : string) : World :=
  {| env := env_of provider;
     generate := fun _ => inr (Str (lit "An answer."));
     db_fault := fun _ => None;
     now := 7 |}.

Definition sdk_ok : Vendor -> option JsError := fun _ => None.

Definition controller_of (provider : string) : AIController :=
  new_AIController (env_of provider) sdk_ok.

Definition unconfigured : AIController := {| aiService := None |}.

Definition alice : ReqUser := {| userId := 10; user_role := lit "user" |}.
Definition bob : ReqUser := {| userId := 20; user_role := lit "user" |}.

Definition said (r : Role) (text : string) : Message :=
  {| role := r; content := Str (lit text) |}.

Definition bobs_conversation : ConversationDoc :=
  {| c_userId := 20;
     c_title := lit "Weaving";
     c_messages := [said user "Weaving"; said assistant "Looms."];
     c_createdAt := 1;
     c_updatedAt := 1 |}.

Definition alices_conversation : ConversationDoc :=
  {| c_userId := 10;
     c_title := lit "Masks";
     c_messages :=
       [said user "m1"; said assistant "m2"; said user "m3";
        said assistant "m4"; said user "m5"; said assistant "m6";
        said user "m7"];
     c_createdAt := 2;
     c_updatedAt := 3 |}.

Definition an_entry (id author : Id) (st : EntryStatus) (public : bool) : EntryDoc :=
  {| e_id := id;
     e_title := lit "Coffee ceremony";
     e_description := lit "Roasting, grinding and brewing in three rounds.";
     e_category := lit "ritual";
     e_culturalContext := Some (lit "Hospitality");
     e_historicalPeriod := None;
     e_location :=
       Some {| l_name := None; l_country := Some (lit "Ethiopia"); l_region := None |};
     e_tags := [lit "coffee"];
     e_author := author;
     e_status := st;
     e_isPublic := public |}.

Definition sample_store : Store :=
  {| entries := [an_entry 1 10 published true; an_entry 2 20 draft false];
     conversations := <[1 := bobs_conversation]> (<[2 := alices_conversation]> ∅);
     users := [ {| u_id := 10; u_username := lit "alice" |};
                {| u_id := 20; u_username := lit "bob" |} ] |}.

Definition ask (u : ReqUser) (q : string) (cid : option Id) (entries : bool)
  : AskRequest :=
  {| ask_errors := [];
     ask_user := u;
     question := lit q;
     context := None;
     includeEntries := entries;
     conversationId := cid;
     temperature := None;
     maxTokens := None |}.

Definition tags_request : TagsRequest :=
  {| tags_errors := [];
     t_title := Some (lit "Coffee ceremony");
     t_description := Some (lit "Roasting, grinding and brewing.");
     t_culturalContext := None;
     t_category := Some (lit "ritual");
     t_location := None |}.

Definition a_failure (code : option string) (st : option N) : JsError :=
  {| err_code := lit <$> code; err_status := st; err_message := lit "failed" |}.

(** The calm world, except that the store operations [broken] picks fail
    and the vendor raises [refusal] when there is one. *)
Definition troubled (provider : string) (broken : DbOp -> bool)
    (refusal : option JsError) : World :=
  {| env := env_of provider;
     generate := fun _ => match refusal with
                          | Some e => inl e
                          | None => inr (Str (lit "An answer."))
                          end;
     db_fault := fun op => if broken op then Some (a_failure None None) else None;
     now := 7 |}.

Definition is_findOne (op : DbOp) : bool :=
  match op with Conversation_findOne _ _ => true | _ => false end.

Definition is_find (op : DbOp) : bool :=
  match op with Entry_find _ _ _ => true | _ => false end.

(** A request with the entry context switched off. *)
Definition without_entries (req : AskRequest) : AskRequest :=
  {| ask_errors := ask_errors req;
     ask_user := ask_user req;
     question := question req;
     context := context req;
     includeEntries := false;
     conversationId := conversationId req;
     temperature := temperature req;
     maxTokens := maxTokens req |}.

(** * The conversation list

    The function [getConversations] maps over the conversations of a page:
    the conversation with its number of messages and a preview of its last
    message. *)

Record ConversationSummary := {
  sum_id : Id;
  sum_title : jsstring;
  sum_createdAt : Timestamp;
  sum_updatedAt : Timestamp;
  sum_messages : list Message;
  messageCount : nat;
  lastMessage : jsstring }.

(** [conv.messages[conv.messages.length - 1]?.content.substring(0, 100) || ""]:
    the optional chain stops at a missing last message only; a last message
    without content throws. *)
Definition lastMessageOf (messages : list Message) : JsError + jsstring :=
  match last messages with
  | None => inr []
  | Some m =>
      match content m with
      | Undefined =>
          inl (TypeError "Cannot read properties of undefined (reading 'substring')")
      | Null =>
          inl (TypeError "Cannot read properties of null (reading 'substring')")
      | Str text => inr (or_else (Some (substring0 100 text)) [])
      end
  end.

Definition withCount (conv : Id * ConversationDoc) : JsError + ConversationSummary :=
  match lastMessageOf (c_messages (snd conv)) with
  | inl e => inl e
  | inr preview =>
      inr {| sum_id := fst conv;
             sum_title := c_title (snd conv);
             sum_createdAt := c_createdAt (snd conv);
             sum_updatedAt := c_updatedAt (snd conv);
             sum_messages := c_messages (snd conv);
             messageCount := length (c_messages (snd conv));
             lastMessage := preview |}
  end.

(** [conversations.map(...)]: the first element that throws ends the map. *)
Fixpoint conversationsWithCount (conversations : list (Id * ConversationDoc))
  : JsError + list ConversationSummary :=
  match conversations with
  | [] => inr []
  | conv :: rest =>
      match withCount conv with
      | inl e => inl e
      | inr summary =>
          match conversationsWithCount rest with
          | inl e => inl e
          | inr summaries => inr (summary :: summaries)
          end
      end
  end.

(** * Further notions the properties are stated with *)

(** The name that selects a vendor, in [initializeAIService] and in the
    dispatch of the handlers. *)
Definition vendor_name (v : Vendor) : jsstring :=
  match v with
  | OpenAI => lit "openai"
  | Anthropic => lit "anthropic"
  | GoogleGenerativeAI => lit "google"
  end.

(** The two messages a request adds, as a conversation of its own. *)
Definition started (w : World) (req : AskRequest) (answer : jsvalue)
  : ConversationDoc :=
  {| c_userId := userId (ask_user req);
     c_title := substring0 100 (question req);
     c_messages := exchange (question req) answer;
     c_createdAt := now w;
     c_updatedAt := now w |}.

(** The store after the exchange of a request is saved. *)
Definition persisted (w : World) (req : AskRequest) (answer : jsvalue)
    (s : Store) : Store :=
  {| entries := entries s;
     conversations :=
       match conversationId req with
       | None =>
           <[fresh (dom (conversations s)) := started w req answer]>
             (conversations s)
       | Some cid =>
           alter (Conversation.push (exchange (question req) answer) (now w))
             cid (conversations s)
       end;
     users := users s |}.

(** The one write of a request that saves its exchange. *)
Definition persist_op (w : World) (req : AskRequest) (answer : jsvalue)
  : DbOp :=
  match conversationId req with
  | None => Conversation_save (started w req answer)
  | Some cid =>
      Conversation_findByIdAndUpdate cid (exchange (question req) answer) (now w)
  end.

(** The id a request that saves its exchange answers with. *)
Definition persisted_id (req : AskRequest) (s : Store) : Id :=
  match conversationId req with
  | None => fresh (dom (conversations s))
  | Some cid => cid
  end.

(** The model a vendor call names. *)
Definition call_model (c : AdapterCall) : jsstring :=
  match c with
  | chat_completions_create model _ _ _ => model
  | messages_create model _ _ _ _ => model
  | generateContent model _ => model
  end.

(** The access test of the two entry handlers, on the id of the author. *)
Definition canAccess (u : ReqUser) (author : Id) (entry : EntryDoc) : bool :=
  bool_decide (author = userId u) || e_isPublic entry || is_admin u.

(** More sample data. *)
Definition carol_admin : ReqUser := {| userId := 30; user_role := lit "admin" |}.

Definition orphaned_store : Store :=
  {| entries := [an_entry 5 77 published true];
     conversations := ∅;
     users := [] |}.

Definition env_unset : Env :=
  {| AI_PROVIDER := None;
     OPENAI_MODEL := None;
     ANTHROPIC_MODEL := None;
     GOOGLE_MODEL := None;
     NODE_ENV := Some (lit "development") |}.

(** A world in development mode with no provider name set, in which the
    vendor raises [refusal] when there is one. *)
Definition unset_world (refusal : option JsError) : World :=
  {| env := env_unset;
     generate := fun _ => match refusal with
                          | Some e => inl e
                          | None => inr (Str (lit "Loom, weft, warp"))
                          end;
     db_fault := fun _ => None;
     now := 9 |}.

Definition env_two_models : Env :=
  {| AI_PROVIDER := Some (lit "anthropic");
     OPENAI_MODEL := Some (lit "gpt-4o");
     ANTHROPIC_MODEL := None;
     GOOGLE_MODEL := None;
     NODE_ENV := None |}.

Definition two_models : World :=
  {| env := env_two_models;
     generate := fun _ => inr (Str (lit "An answer."));
     db_fault := fun _ => None;
     now := 7 |}.

(** * Properties *)

(** ** Strings *)

Section StringFacts.

Lemma split_nonempty c s : split c s <> [].
Proof. destruct s as [|x s]; simpl; [done|]. destruct (N.eqb x c); [done|]. by destruct (split c s). Qed.

(** Joining the pieces with the separator gives the string back. *)
Lemma join_split c s : join [c] (split c s) = s.
Proof.
  induction s as [|x s IH]; simpl; [done|].
  destruct (N.eqb_spec x c) as [->|Hne].
  - pose proof (split_nonempty c s) as Hs.
    destruct (split c s) as [|p ps]; [done|]. simpl in *. by rewrite IH.
  - pose proof (split_nonempty c s) as Hs.
    destruct (split c s) as [|p ps]; [done|].
    simpl in *. destruct ps; simpl in *; by rewrite <- IH.
Qed.

(** No piece holds the separator. *)
Lemma split_no_sep c s : Forall (fun piece => c ∉ piece) (split c s).
Proof.
  induction s as [|x s IH]; simpl.
  - repeat constructor. apply not_elem_of_nil.
  - destruct (N.eqb_spec x c) as [->|Hne].
    + constructor; [apply not_elem_of_nil | done].
    + pose proof (split_nonempty c s) as Hs.
      destruct (split c s) as [|p ps]; [done|].
      inversion IH; subst. constructor; [|done].
      rewrite elem_of_cons. intros [?|?]; [congruence|done].
Qed.

(** The pieces are determined by these two facts: [split] is the only
    way to cut a string at every separator. *)
Lemma split_unique c s pieces :
  pieces <> [] -> join [c] pieces = s ->
  Forall (fun piece => c ∉ piece) pieces -> pieces = split c s.
Proof.
  revert pieces. induction s as [|x s IH]; intros pieces Hne Hj Hf.
  - destruct pieces as [|p [|q ps]]; simpl in *; [done|by subst|].
    by destruct p.
  - destruct pieces as [|p ps]; [done|]. inversion Hf as [|? ? Hp Hps]; subst.
    destruct p as [|y p].
    + destruct ps as [|q ps]; [done|]. simpl in Hj. injection Hj as -> Hj.
      simpl. rewrite N.eqb_refl. f_equal. by apply IH.
    + assert (y = x /\ join [c] (p :: ps) = s) as [-> Hj'].
      { destruct ps; simpl in *; by simplify_eq. }
      simpl. destruct (N.eqb_spec x c) as [->|Hxc].
      { exfalso. apply Hp. by left. }
      rewrite <- (IH (p :: ps)); [done|done|done|].
      constructor; [|done]. intros Hin. apply Hp. by right.
Qed.

Lemma trimStart_spec s :
  exists l, s = l ++ trimStart s /\ Forall (fun x => is_space x = true) l
            /\ ~ starts_with_space (trimStart s).
Proof.
  induction s as [|x s (l & Hs & Hl & Hh)]; simpl.
  - exists []. split_and!; [done|constructor|]. unfold starts_with_space; simpl; tauto.
  - destruct (is_space x) eqn:E.
    + exists (x :: l). split_and!; [simpl; congruence|by constructor|done].
    + exists []. split_and!; [done|constructor|].
      unfold starts_with_space. simpl. congruence.
Qed.

Lemma trimEnd_spec s :
  exists r, s = trimEnd s ++ r /\ Forall (fun x => is_space x = true) r
            /\ ~ ends_with_space (trimEnd s).
Proof.
  unfold trimEnd. destruct (trimStart_spec (rev s)) as (l & Hs & Hl & Hh).
  exists (rev l). split_and!.
  - rewrite <- rev_app_distr, <- Hs. by rewrite rev_involutive.
  - by apply List.Forall_rev.
  - unfold ends_with_space, starts_with_space in *.
    destruct (trimStart (rev s)) as [|y t]; simpl in *; [tauto|].
    by rewrite last_snoc.
Qed.

Lemma trimEnd_keeps_head s :
  ~ starts_with_space s -> ~ starts_with_space (trimEnd s).
Proof.
  intros Hs. destruct (trimEnd_spec s) as (r & Hr & _ & _).
  unfold starts_with_space in *.
  destruct (trimEnd s) as [|y t]; [simpl; tauto|]. rewrite Hr in Hs. done.
Qed.

(** [trim] removes a run of white space at each end and nothing else,
    and what it leaves neither starts nor ends with white space. *)
Lemma trim_spec s :
  exists l r,
    s = l ++ trim s ++ r
    /\ Forall (fun x => is_space x = true) l
    /\ Forall (fun x => is_space x = true) r
    /\ ~ starts_with_space (trim s) /\ ~ ends_with_space (trim s).
Proof.
  unfold trim. destruct (trimStart_spec s) as (l & Hs & Hl & Hh).
  destruct (trimEnd_spec (trimStart s)) as (r & Hr & Hrs & He).
  exists l, r. split_and!; [congruence|done|done| |done].
  by apply trimEnd_keeps_head.
Qed.

Lemma substring0_length n s : length (substring0 n s) <= n.
Proof. unfold substring0. rewrite length_take. lia. Qed.

Lemma substring0_prefix n s : substring0 n s `prefix_of` s.
Proof. apply prefix_take. Qed.

Lemma substring0_idem n s : substring0 n (substring0 n s) = substring0 n s.
Proof. unfold substring0. rewrite take_take. f_equal. lia. Qed.

Lemma slice_last_length {A} n (l : list A) :
  length (slice_last n l) = min n (length l).
Proof. unfold slice_last. rewrite length_drop. lia. Qed.

Lemma slice_last_suffix {A} n (l : list A) : slice_last n l `suffix_of` l.
Proof. apply suffix_drop. Qed.

End StringFacts.

(** ** Tags *)

Lemma filter_keep_tag l :
  List.filter keep_tag l = filter (fun t => t <> [] /\ length t <= 49) l.
Proof.
  induction l as [|t l IH]; [done|]. simpl. rewrite filter_cons, IH.
  unfold keep_tag.
  case_decide as Hn; [destruct Hn as [Hne Hlen]|];
    destruct (Nat.ltb_spec 0 (length t)), (Nat.ltb_spec (length t) 50);
    simpl; try done; try lia.
  - destruct t; simpl in *; [done|lia].
  - exfalso. apply Hn. split; [intros ->; simpl in *; lia|lia].
Qed.

Lemma sublist_bool_filter {A} (f : A -> bool) l : List.filter f l `sublist_of` l.
Proof.
  induction l as [|x l IH]; simpl; [constructor|].
  destruct (f x); by constructor.
Qed.

(** C2, as the code has it. For every adapter output the tags are the
    comma-separated tokens of the text (the only pieces that join back to
    it and hold no comma), each trimmed of white space at both ends, without
    the empty ones and the ones longer than 49 code units, in their order,
    and at most 15 of them. On the example of the specification the long
    token counts 48 code units and stays: the result has four tags. *)
Theorem C2_parseTags_rule :
  (forall tagsText,
     (exists tokens,
        tokens <> [] /\ join [comma] tokens = tagsText
        /\ Forall (fun t => comma ∉ t) tokens
        /\ (forall other, other <> [] -> join [comma] other = tagsText ->
            Forall (fun t => comma ∉ t) other -> other = tokens)
        /\ parseTags tagsText = tags_of_tokens tokens)
     /\ length (parseTags tagsText) <= 15
     /\ Forall (fun tag => tag <> [] /\ length tag <= 49
                          /\ ~ starts_with_space tag /\ ~ ends_with_space tag)
          (parseTags tagsText)
     /\ parseTags tagsText `sublist_of` map trim (split comma tagsText))
  /\ parseTags spec_example
     = [lit "Tag1"; lit "tag2";
        lit "averylongtagthatexceedsfortyninecharacters......"; lit "Tag3"]
  /\ length (lit "averylongtagthatexceedsfortyninecharacters......") = 48.
Proof.
  split; [|by vm_compute].
  intros tagsText. split_and!.
  - exists (split comma tagsText). split_and!.
    + apply split_nonempty.
    + apply join_split.
    + apply split_no_sep.
    + intros other ? ? ?. by apply split_unique.
    + unfold parseTags, tags_of_tokens, slice0. by rewrite filter_keep_tag.
  - unfold parseTags, slice0. rewrite length_take. lia.
  - unfold parseTags, slice0. apply Forall_take. rewrite filter_keep_tag.
    apply Forall_forall. intros tag [[Hne Hlen] Hin]%list_elem_of_filter.
    apply list_elem_of_fmap in Hin as (tok & -> & _).
    destruct (trim_spec tok) as (l & r & _ & _ & _ & Hs & He). done.
  - unfold parseTags, slice0. etrans; [apply sublist_take|].
    apply sublist_bool_filter.
Qed.

(** C2 as the specification words it fails on its own example: the result
    is not the three short tags. *)
Lemma C2_example_is_not_three_tags :
  parseTags spec_example <> [lit "Tag1"; lit "tag2"; lit "Tag3"].
Proof. by vm_compute. Qed.

(** ** Running the handlers *)

Ltac unfold_handler :=
  cbv beta iota zeta delta
    [run initial askQuestion getEntrySuggestions generateTags
     analyzeCulturalSignificance getConversationById deleteConversation
     getServiceStatus assembleEntries assembleHistory askDispatch
     saveExchange generateText Entry.find Entry.findById
     Entry.findById_populate Conversation.findOne Conversation.save
     Conversation.findByIdAndUpdate Conversation.findOneAndDelete
     try_catch bind ret throw log db invoke JS.eqb call_vendor
     store trace calls console fst snd] in *.

Ltac reduce_handler :=
  cbv beta iota zeta delta [store trace calls console fst snd] in *.

Ltac run_handler :=
  unfold_handler; repeat (case_match; simplify_eq; reduce_handler).

(** A [try]/[catch] whose [catch] block ends in a value ends in a value:
    every handler of the controller answers. *)
Lemma try_catch_responds {A} (m : Handler A) (h : JsError -> Handler A) st :
  (forall e st', exists a, fst (h e st') = inr a) ->
  exists a, fst (try_catch m h st) = inr a.
Proof.
  intros Hh. unfold try_catch. destruct (m st) as [[e|a] st']; [|by exists a].
  apply Hh.
Qed.

Lemma askQuestion_responds this w req s :
  exists r, fst (run (askQuestion this w req) s) = inr r.
Proof. apply try_catch_responds. intros e st'. by eexists. Qed.

Lemma generateTags_responds this w req s :
  exists r, fst (run (generateTags this w req) s) = inr r.
Proof. apply try_catch_responds. intros e st'. by eexists. Qed.

Lemma getEntrySuggestions_responds this w req s :
  exists r, fst (run (getEntrySuggestions this w req) s) = inr r.
Proof. apply try_catch_responds. intros e st'. by eexists. Qed.

Lemma analyzeCulturalSignificance_responds this w req s :
  exists r, fst (run (analyzeCulturalSignificance this w req) s) = inr r.
Proof. apply try_catch_responds. intros e st'. by eexists. Qed.

(** Every vendor call of [askQuestion] carries the prompt built from the
    assembled context. *)
Lemma askQuestion_calls this w req s :
  Forall (fun call =>
            call_prompt call
            = Some (userPrompt (question req) (context req)
                      (referenced w req s) (replayed req s)))
    (calls (snd (run (askQuestion this w req) s))).
Proof.
  unfold referenced, replayed.
  run_handler.
  all: rewrite ?app_nil_l; repeat constructor.
Qed.

(** ** History replay *)

Lemma assembleHistory_found w cid uid c st :
  conversations (store st) !! cid = Some c -> c_userId c = uid ->
  db_fault w (Conversation_findOne cid uid) = None ->
  fst (assembleHistory w (Some cid) uid st) = inr (slice_last 5 (c_messages c)).
Proof.
  intros Hc Hown Hok. unfold_handler. rewrite Hok. reduce_handler.
  unfold Conversation.lookup. rewrite Hc. by rewrite bool_decide_eq_true_2.
Qed.

Lemma replayed_found req s cid c :
  conversationId req = Some cid -> conversations s !! cid = Some c ->
  c_userId c = userId (ask_user req) ->
  replayed req s = slice_last 5 (c_messages c).
Proof.
  intros Hid Hc Hown. unfold replayed, Conversation.lookup.
  rewrite Hid, Hc. by rewrite bool_decide_eq_true_2.
Qed.

(** C7. When a request continues a conversation of its user, the history
    is the conversation's messages from the fifth-last on: as many as the
    conversation has and never more than five, in the conversation's order;
    the history lookup returns exactly these, and every vendor call of the
    request carries the prompt built from them. *)
Theorem C7_replay_last_five this w req s cid c :
  conversationId req = Some cid ->
  conversations s !! cid = Some c ->
  c_userId c = userId (ask_user req) ->
  let history := drop (length (c_messages c) - 5) (c_messages c) in
  length history = min 5 (length (c_messages c))
  /\ history `suffix_of` c_messages c
  /\ (db_fault w (Conversation_findOne cid (userId (ask_user req))) = None ->
      fst (assembleHistory w (conversationId req) (userId (ask_user req))
             (initial s))
      = inr history)
  /\ Forall (fun call =>
               call_prompt call
               = Some (userPrompt (question req) (context req)
                         (referenced w req s) history))
       (calls (snd (run (askQuestion this w req) s))).
Proof.
  intros Hid Hc Hown history. split_and!.
  - apply (slice_last_length 5).
  - apply (slice_last_suffix 5).
  - intros Hok. rewrite Hid. by apply assembleHistory_found.
  - pose proof (askQuestion_calls this w req s) as H.
    by rewrite (replayed_found req s cid c) in H.
Qed.

(** ** Reference context *)

Lemma length_lit s : length (lit s) = String.length s.
Proof.
  unfold lit. rewrite length_map.
  induction s as [|a s IH]; simpl; [done|by rewrite IH].
Qed.

Lemma select_length author status limit s :
  length (Entry.select author status limit s) <= limit.
Proof. unfold Entry.select. rewrite length_take. lia. Qed.

Lemma select_sound author status limit s :
  Forall (fun e => e_author e = author /\ e_status e = status /\ e ∈ entries s)
    (Entry.select author status limit s).
Proof.
  unfold Entry.select. apply Forall_take, Forall_forall. intros e He.
  apply list_elem_of_In, filter_In in He as [Hin Hb].
  apply andb_true_iff in Hb as [?%bool_decide_eq_true ?%bool_decide_eq_true].
  split_and!; [done|done|]. by apply list_elem_of_In.
Qed.

Lemma select_sublist author status limit s :
  Entry.select author status limit s `sublist_of` entries s.
Proof.
  unfold Entry.select. etrans; [apply sublist_take|apply sublist_bool_filter].
Qed.

Lemma entryLines_truncated index entry :
  entryLines index (truncated entry) = entryLines index entry.
Proof.
  unfold entryLines, truncated.
  cbn [e_description e_culturalContext e_title e_category e_location].
  rewrite substring0_idem.
  destruct (e_culturalContext entry) as [[|x t]|]; [done| |done].
  change (truthy (substring0 150 <$> Some (x :: t))) with true.
  change (truthy (Some (x :: t))) with true. cbv iota.
  change (interp (substring0 150 <$> Some (x :: t)))
    with (substring0 150 (x :: t)).
  by rewrite substring0_idem.
Qed.

Lemma entryContextOf_truncated userEntries :
  entryContextOf (truncated <$> userEntries) = entryContextOf userEntries.
Proof.
  unfold entryContextOf. rewrite length_fmap, imap_fmap.
  destruct (0 <? length userEntries); [|done].
  do 5 f_equal. apply imap_ext. intros i e _. apply entryLines_truncated.
Qed.

(** The text of an entry in the context block: its length is bounded
    whatever the lengths of the description and the cultural context. *)
Lemma entryLines_length index entry :
  length (entryLines index entry)
  <= length (of_nat (index + 1)) + length (e_title entry)
     + length (e_category entry)
     + length (interp (location_field l_country (e_location entry)))
     + 200 + 150 + 65.
Proof.
  unfold entryLines, nl.
  pose proof (substring0_length 200 (e_description entry)).
  pose proof (substring0_length 150 (interp (e_culturalContext entry))).
  destruct (truthy (e_culturalContext entry)),
    (truthy (location_field l_country (e_location entry)));
    rewrite !length_app, !length_lit; cbn [String.length length]; lia.
Qed.

Lemma assembleEntries_found w uid st :
  db_fault w (Entry_find uid published 5) = None ->
  fst (assembleEntries w true uid st)
  = inr (entryContextOf (Entry.select uid published 5 (store st))).
Proof. intros Hok. unfold_handler. by rewrite Hok. Qed.

(** C8. With [includeEntries] set, the entries fetched are at most five,
    all of them written by the requesting user and published, in the order
    of the store; the lookup returns the block built from them, which is the
    block of the same entries with the description cut to 200 and the
    cultural context to 150 code units, so that each entry's text is bounded
    whatever the lengths of these two fields; and every vendor call of the
    request carries the prompt built with this block. *)
Theorem C8_reference_budgets this w req s :
  let uid := userId (ask_user req) in
  let userEntries := Entry.select uid published 5 s in
  length userEntries <= 5
  /\ Forall (fun e => e_author e = uid /\ e_status e = published
                      /\ e ∈ entries s) userEntries
  /\ userEntries `sublist_of` entries s
  /\ (db_fault w (Entry_find uid published 5) = None ->
      fst (assembleEntries w true uid (initial s))
      = inr (entryContextOf userEntries))
  /\ entryContextOf userEntries = entryContextOf (truncated <$> userEntries)
  /\ Forall (fun e => length (e_description e) <= 200
                      /\ forall c, e_culturalContext e = Some c -> length c <= 150)
       (truncated <$> userEntries)
  /\ (forall index entry,
        length (entryLines index entry)
        <= length (of_nat (index + 1)) + length (e_title entry)
           + length (e_category entry)
           + length (interp (location_field l_country (e_location entry)))
           + 200 + 150 + 65)
  /\ (includeEntries req = true ->
      db_fault w (Entry_find uid published 5) = None ->
      Forall (fun call =>
                call_prompt call
                = Some (userPrompt (question req) (context req)
                          (entryContextOf userEntries) (replayed req s)))
        (calls (snd (run (askQuestion this w req) s)))).
Proof.
  intros uid userEntries. split_and!.
  - apply select_length.
  - apply select_sound.
  - apply select_sublist.
  - apply assembleEntries_found.
  - symmetry. apply entryContextOf_truncated.
  - apply Forall_fmap, Forall_true. intros e.
    cbn [truncated e_description e_culturalContext]. split.
    + apply substring0_length.
    + intros c Hc. cbn [truncated e_culturalContext] in Hc.
      destruct (e_culturalContext e) as [cc|]; inversion Hc.
      apply substring0_length.
  - apply entryLines_length.
  - intros Hinc Hok. subst uid userEntries.
    pose proof (askQuestion_calls this w req s) as H.
    unfold referenced in H. by rewrite Hinc, Hok in H.
Qed.

(** ** Handlers do not read their own trace *)

Section Framing.
Context {A B : Type}.

Lemma framed_ret (a : A) : framed (ret a).
Proof. by intros ops lines st st' H. Qed.

Lemma framed_throw (e : JsError) : framed (throw (A := A) e).
Proof. by intros ops lines st st' H. Qed.

Lemma framed_bind (m : Handler A) (k : A -> Handler B) :
  framed m -> (forall a, framed (k a)) -> framed (bind m k).
Proof.
  intros Hm Hk ops lines st st' H. unfold bind.
  destruct (Hm ops lines st st' H) as [Hfst Hext].
  destruct (m st) as [[e|a] st1], (m st') as [[e'|a'] st1'];
    simpl in *; simplify_eq; [done|]. by apply Hk.
Qed.

Lemma framed_try_catch (m : Handler A) (h : JsError -> Handler A) :
  framed m -> (forall e, framed (h e)) -> framed (try_catch m h).
Proof.
  intros Hm Hh ops lines st st' H. unfold try_catch.
  destruct (Hm ops lines st st' H) as [Hfst Hext].
  destruct (m st) as [[e|a] st1], (m st') as [[e'|a'] st1'];
    simpl in *; simplify_eq; [|done]. by apply Hh.
Qed.

Lemma framed_db w op (run : Store -> A * Store) : framed (db w op run).
Proof.
  intros ops lines st st' (Hs & Hc & Ht & Hl). unfold db. rewrite Hs.
  destruct (db_fault w op); [|destruct (run (store st'))]; simpl;
    (split; [done|]); split_and!; simpl; try done;
    by rewrite Ht, app_assoc.
Qed.

End Framing.

Lemma framed_log l : framed (log l).
Proof.
  intros ops lines st st' (Hs & Hc & Ht & Hl). unfold log. simpl.
  split; [done|]. split_and!; simpl; try done. by rewrite Hl, app_assoc.
Qed.

Lemma framed_invoke w client c : framed (invoke w client c).
Proof.
  intros ops lines st st' (Hs & Hc & Ht & Hl). unfold invoke.
  destruct (bool_decide _); simpl; [|done].
  split; [done|]. split_and!; simpl; try done. by rewrite Hc.
Qed.

Ltac framed_step :=
  first
    [ apply framed_ret | apply framed_throw | apply framed_log
    | apply framed_db | apply framed_invoke
    | apply framed_bind; [|intros ?]
    | apply framed_try_catch; [|intros ?]
    | match goal with
      | |- framed (match ?x with _ => _ end) => destruct x
      | |- framed (if ?x then _ else _) => destruct x
      end ].

Lemma framed_assembleHistory w cid uid : framed (assembleHistory w cid uid).
Proof. unfold assembleHistory, Conversation.findOne. repeat framed_step. Qed.

Lemma framed_askDispatch w client prompt m t :
  framed (askDispatch w client prompt m t).
Proof. unfold askDispatch. cbv zeta. repeat framed_step. Qed.

Lemma framed_saveExchange w cid uid q a : framed (saveExchange w cid uid q a).
Proof.
  unfold saveExchange, Conversation.save, Conversation.findByIdAndUpdate.
  repeat framed_step.
Qed.

Lemma try_catch_bind {A B} (m : Handler A) (k : A -> Handler B) h st a st1 :
  m st = (inr a, st1) -> try_catch (bind m k) h st = try_catch (k a) h st1.
Proof. intros Hm. unfold try_catch, bind. by rewrite Hm. Qed.

(** ** The error taxonomy of [askQuestion] *)

(** The status of the [catch] block, branch by branch: the second test of
    the status 429 is only reached when the first has failed. *)
Lemma askQuestion_error_status e error :
  status (askQuestion_error e error)
  = if code_is error "insufficient_quota" || status_is error 429 then 503
    else if code_is error "rate_limit_exceeded" then 429
    else if code_is error "context_length_exceeded" then 400
    else 500.
Proof.
  unfold askQuestion_error.
  destruct (code_is error "insufficient_quota"), (status_is error 429),
    (code_is error "rate_limit_exceeded"),
    (code_is error "context_length_exceeded"); reflexivity.
Qed.

Lemma askQuestion_error_not_ok e error : status (askQuestion_error e error) <> 200.
Proof.
  rewrite askQuestion_error_status. repeat case_match; discriminate.
Qed.

(** Outside development mode the catch-all response carries no error
    message. *)
Lemma askQuestion_error_suppressed e error :
  NODE_ENV e <> Some (lit "development") ->
  status (askQuestion_error e error) = 500 ->
  body (askQuestion_error e error)
  = Failure (lit "Internal server error while processing AI request") None None.
Proof.
  intros Hdev. unfold askQuestion_error.
  destruct (code_is error "insufficient_quota" || status_is error 429);
    [simpl; discriminate|].
  destruct (code_is error "rate_limit_exceeded" || status_is error 429);
    [simpl; discriminate|].
  destruct (code_is error "context_length_exceeded"); [simpl; discriminate|].
  intros _. cbn [body]. by rewrite bool_decide_eq_false_2.
Qed.

(** C5, at the input where the code leaves the taxonomy. A rate-limit
    error as the vendors raise it, with code "rate_limit_exceeded" and status
    429, is answered 503 with the quota message and not 429: the first test
    of the [catch] block already accepts every error of status 429. The
    other three rows hold: quota exhaustion gives 503, a context-length error
    400, and any other error 500 without its message in production. *)
Theorem C5_rate_limit_answered_as_quota :
  let rate_limited := a_failure (Some "rate_limit_exceeded"%string) (Some 429%N) in
  let w := troubled "openai" (fun _ => false) (Some rate_limited) in
  askQuestion_error (env w) rate_limited
  = fail 503 "AI service quota exceeded. Please try again later."
  /\ fst (run (askQuestion (controller_of "openai") w (ask alice "Q?" None false))
            sample_store)
     = inr (fail 503 "AI service quota exceeded. Please try again later.")
  /\ status (askQuestion_error (env w) (a_failure (Some "rate_limit_exceeded"%string) None))
     = 429
  /\ status (askQuestion_error (env w) (a_failure (Some "insufficient_quota"%string) None))
     = 503
  /\ status (askQuestion_error (env w)
               (a_failure (Some "context_length_exceeded"%string) None))
     = 400
  /\ askQuestion_error (env w) (a_failure None None)
     = {| status := 500;
          body := Failure (lit "Internal server error while processing AI request")
                    None None |}.
Proof. by vm_compute. Qed.

(** ** Ownership on continuation *)

Lemma replayed_foreign req s cid c :
  conversationId req = Some cid -> conversations s !! cid = Some c ->
  c_userId c <> userId (ask_user req) ->
  replayed req s = [].
Proof.
  intros Hid Hc Hown. unfold replayed, Conversation.lookup.
  rewrite Hid, Hc. by rewrite bool_decide_eq_false_2.
Qed.

(** C1, at an input where the code breaks it. Alice asks with the id of
    Bob's conversation. The lookup is by id and owner, so nothing of Bob's
    conversation reaches the prompt; the update is by id alone, so the
    question and the answer are appended to Bob's conversation, no
    conversation is created for Alice, and the response names Bob's
    conversation. The same request without the id leaves Bob's conversation
    alone and stores a new one for Alice. *)
Theorem C1_pair_appended_to_foreign_conversation :
  let req := ask alice "Q?" (Some 1) false in
  let r := run (askQuestion (controller_of "openai") (calm "openai") req)
             sample_store in
  let r_absent :=
    run (askQuestion (controller_of "openai") (calm "openai")
           (ask alice "Q?" None false)) sample_store in
  conversations sample_store !! 1 = Some bobs_conversation
  /\ c_userId bobs_conversation <> userId alice
  /\ replayed req sample_store = []
  /\ calls (snd r) = calls (snd r_absent)
  /\ fst r
     = inr (ok (AskData (lit "Q?") (Str (lit "An answer.")) 1 7
                  (lit "openai") (lit "default")))
  /\ conversations (store (snd r)) !! 1
     = Some {| c_userId := 20;
               c_title := lit "Weaving";
               c_messages :=
                 [said user "Weaving"; said assistant "Looms.";
                  said user "Q?"; said assistant "An answer."];
               c_createdAt := 1;
               c_updatedAt := 7 |}
  /\ dom (conversations (store (snd r))) = dom (conversations sample_store)
  /\ fst r_absent
     = inr (ok (AskData (lit "Q?") (Str (lit "An answer.")) 3 7
                  (lit "openai") (lit "default")))
  /\ conversations (store (snd r_absent)) !! 1 = Some bobs_conversation
  /\ conversations (store (snd r_absent)) !! 3
     = Some {| c_userId := 10;
               c_title := lit "Q?";
               c_messages := [said user "Q?"; said assistant "An answer."];
               c_createdAt := 7;
               c_updatedAt := 7 |}.
Proof. by vm_compute. Qed.

(** ** No provider configured *)

(** C3 as the specification words it fails: with no provider configured,
    a suggestions request for an entry that does not exist is answered 404
    after a read of the store. *)
Lemma C3_lookup_precedes_availability :
  let r := run (getEntrySuggestions unconfigured (calm "openai")
                  {| id_user := alice; param_id := 99 |}) sample_store in
  aiService unconfigured = None
  /\ fst r = inr (fail 404 "Cultural entry not found")
  /\ trace (snd r) = [Entry_findById 99 false]
  /\ ~ (exists resp, fst r = inr resp /\ status resp = 503)
  /\ trace (snd r) <> [].
Proof.
  split_and!; [reflexivity|by vm_compute|by vm_compute| |by vm_compute].
  intros (resp & Hresp & Hstatus). vm_compute in Hresp.
  injection Hresp as <-. discriminate Hstatus.
Qed.

(** C3, as the code has it. With no provider configured, [askQuestion] and
    [generateTags] answer 400 to a request that fails validation and 503 to
    any other, and do nothing else: no store operation, no vendor call. The
    two handlers that work on an entry read the entry first, once, and
    write nothing: they answer 500 when the read fails (or, in the analysis,
    when the author no longer exists), 404 when there is no such entry, 403
    when the requester may not see it, and 503 only then. *)
Theorem C3_unconfigured_provider this w s :
  aiService this = None ->
  (forall req,
     run (askQuestion this w req) s
     = (inr (if bool_decide (ask_errors req = [])
             then fail 503 "AI service not available. Please check configuration."
             else {| status := 400;
                     body := Failure (lit "Validation failed")
                               (Some (ask_errors req)) None |}),
        initial s))
  /\ (forall req,
        run (generateTags this w req) s
        = (inr (if bool_decide (tags_errors req = [])
                then fail 503 "AI service not available"
                else {| status := 400;
                        body := Failure (lit "Validation failed")
                                  (Some (tags_errors req)) None |}),
           initial s))
  /\ (forall req,
        let op := Entry_findById (param_id req) false in
        let r := run (getEntrySuggestions this w req) s in
        store (snd r) = s /\ trace (snd r) = [op] /\ calls (snd r) = []
        /\ fst r
           = inr match db_fault w op with
                 | Some _ => fail 500 "Internal server error while generating suggestions"
                 | None =>
                     match Entry.lookup (param_id req) s with
                     | None => fail 404 "Cultural entry not found"
                     | Some entry =>
                         if bool_decide (e_author entry = userId (id_user req))
                            || e_isPublic entry || is_admin (id_user req)
                         then fail 503 "AI service not available"
                         else fail 403 "Access denied to this entry"
                     end
                 end)
  /\ (forall req,
        let op := Entry_findById (param_id req) true in
        let r := run (analyzeCulturalSignificance this w req) s in
        store (snd r) = s /\ trace (snd r) = [op] /\ calls (snd r) = []
        /\ fst r
           = inr match db_fault w op with
                 | Some _ =>
                     fail 500 "Internal server error while analyzing cultural significance"
                 | None =>
                     match Entry.lookup (param_id req) s with
                     | None => fail 404 "Cultural entry not found"
                     | Some entry =>
                         match List.find
                                 (fun u => bool_decide (u_id u = e_author entry))
                                 (users s) with
                         | None =>
                             fail 500 "Internal server error while analyzing cultural significance"
                         | Some author =>
                             if bool_decide (u_id author = userId (id_user req))
                                || e_isPublic entry || is_admin (id_user req)
                             then fail 503 "AI service not available"
                             else fail 403 "Access denied to this entry"
                         end
                     end
                 end).
Proof.
  intros Hnone. split_and!; intros req.
  - unfold_handler. rewrite Hnone. by destruct (bool_decide (ask_errors req = [])).
  - unfold_handler. rewrite Hnone. by destruct (bool_decide (tags_errors req = [])).
  - unfold_handler. rewrite Hnone.
    destruct (db_fault w _); [done|]. reduce_handler.
    destruct (Entry.lookup _ s) as [entry|]; [|done].
    by destruct (_ || _ || _).
  - unfold_handler. rewrite Hnone.
    destruct (db_fault w _); [done|]. reduce_handler.
    destruct (Entry.lookup _ s) as [entry|]; [|done].
    destruct (List.find _ (users s)) as [author|]; [|done].
    by destruct (_ || _ || _).
Qed.

(** ** The provider without a branch *)

Lemma initializeAIService_google e sdk :
  AI_PROVIDER e = Some (lit "google") -> sdk GoogleGenerativeAI = None ->
  initializeAIService e sdk = (Some GoogleGenerativeAI, []).
Proof.
  intros He Hsdk. unfold initializeAIService. rewrite He.
  vm_compute. by rewrite Hsdk.
Qed.

Lemma generateText_google w client d system prompt m t st :
  AI_PROVIDER (env w) = Some (lit "google") ->
  generateText w client d system prompt m t st = (inr Undefined, st).
Proof.
  intros He. unfold generateText, provider_name. rewrite He.
  change (eqb (or_else (Some (lit "google")) (lit "openai")) (lit "openai"))
    with false.
  change (eqb (or_else (Some (lit "google")) (lit "openai")) (lit "anthropic"))
    with false.
  reflexivity.
Qed.

(** C9. With "google" configured the dispatch of the three variants runs no
    branch and the generated text stays undefined. [generateTags] then never
    answers with a tag list: a request that passes validation on a
    controller that holds a client ends in the 500 response of the [catch]
    block, without any vendor call, because the post-processing reads a
    property of [undefined]. For the same configuration the controller holds
    the Google client when the SDK loads, and the status endpoint reports
    tag generation as available. *)
Theorem C9_google_tags_end_in_500 this w :
  AI_PROVIDER (env w) = Some (lit "google") ->
  (forall client d system prompt m t st,
     generateText w client d system prompt m t st = (inr Undefined, st))
  /\ (forall req s,
        exists r, fst (run (generateTags this w req) s) = inr r
                  /\ status r <> 200
                  /\ forall tags n t, body r <> TagsData tags n t)
  /\ (forall req s client,
        tags_errors req = [] -> aiService this = Some client ->
        run (generateTags this w req) s
        = (inr (fail 500 "Internal server error while generating tags"),
           {| store := s; trace := []; calls := [];
              console :=
                [console_error (lit "Generate tags error:")
                   [LogError
                      (TypeError
                         "Cannot read properties of undefined (reading 'split')")]] |}))
  /\ (forall sdk, sdk GoogleGenerativeAI = None ->
        aiService (new_AIController (env w) sdk) = Some GoogleGenerativeAI)
  /\ (aiService this <> None ->
      forall s, exists provider model features,
        fst (run (getServiceStatus this w) s)
        = inr (ok (StatusData true provider model features))
        /\ tagGeneration features = true).
Proof.
  intros He.
  assert (forall req s client,
             tags_errors req = [] -> aiService this = Some client ->
             run (generateTags this w req) s
             = (inr (fail 500 "Internal server error while generating tags"),
                {| store := s; trace := []; calls := [];
                   console :=
                     [console_error (lit "Generate tags error:")
                        [LogError
                           (TypeError
                              "Cannot read properties of undefined (reading 'split')")]] |}))
    as Hrun.
  { intros req s client Hvalid Hclient.
    unfold run, generateTags, try_catch, bind. rewrite Hvalid, Hclient.
    rewrite bool_decide_eq_true_2 by done. cbn [negb].
    by rewrite generateText_google. }
  split_and!.
  - intros. by apply generateText_google.
  - intros req s.
    destruct (decide (tags_errors req = [])) as [Hvalid|Hinvalid];
      [destruct (aiService this) as [client|] eqn:Hclient|].
    + rewrite (Hrun req s client) by done. eexists. by split_and!.
    + unfold_handler. rewrite Hclient, bool_decide_eq_true_2 by done.
      eexists. by split_and!.
    + unfold_handler. rewrite bool_decide_eq_false_2 by done.
      eexists. by split_and!.
  - done.
  - intros sdk Hsdk. unfold new_AIController.
    by rewrite initializeAIService_google.
  - intros Hsome s. unfold_handler. rewrite bool_decide_eq_true_2 by done.
    by eexists _, _, _.
Qed.

(** ** Another user's conversation and no conversation *)

Lemma lookup_absent id uid s :
  conversations s !! id = None -> Conversation.lookup id uid s = None.
Proof. intros H. unfold Conversation.lookup. by rewrite H. Qed.

Lemma lookup_foreign id uid s c :
  conversations s !! id = Some c -> c_userId c <> uid ->
  Conversation.lookup id uid s = None.
Proof.
  intros H Hown. unfold Conversation.lookup. rewrite H.
  by rewrite bool_decide_eq_false_2.
Qed.

Lemma getConversationById_none w req s :
  Conversation.lookup (param_id req) (userId (id_user req)) s = None ->
  run (getConversationById w req) s
  = match db_fault w (Conversation_findOne (param_id req) (userId (id_user req))) with
    | Some e =>
        (inr (fail 500 "Internal server error while fetching conversation"),
         {| store := s;
            trace := [Conversation_findOne (param_id req) (userId (id_user req))];
            calls := [];
            console := [console_error (lit "Get conversation error:") [LogError e]] |})
    | None =>
        (inr (fail 404 "Conversation not found"),
         {| store := s;
            trace := [Conversation_findOne (param_id req) (userId (id_user req))];
            calls := []; console := [] |})
    end.
Proof.
  intros Hnone. unfold_handler. destruct (db_fault w _); [done|].
  reduce_handler. by rewrite Hnone.
Qed.

Lemma deleteConversation_none w req s :
  Conversation.lookup (param_id req) (userId (id_user req)) s = None ->
  run (deleteConversation w req) s
  = match db_fault w
            (Conversation_findOneAndDelete (param_id req) (userId (id_user req))) with
    | Some e =>
        (inr (fail 500 "Internal server error while deleting conversation"),
         {| store := s;
            trace := [Conversation_findOneAndDelete (param_id req)
                        (userId (id_user req))];
            calls := [];
            console := [console_error (lit "Delete conversation error:")
                          [LogError e]] |})
    | None =>
        (inr (fail 404 "Conversation not found"),
         {| store := s;
            trace := [Conversation_findOneAndDelete (param_id req)
                        (userId (id_user req))];
            calls := []; console := [] |})
    end.
Proof.
  intros Hnone. unfold_handler. destruct (db_fault w _); [done|].
  reduce_handler. by rewrite Hnone.
Qed.

(** C10. Take a store in which the id names no conversation and a store in
    which it names a conversation of another user. Reading and deleting by
    that id give the same response in both, the same console output and the
    same trace; the response is the 404 "Conversation not found" whenever the
    store operation itself does not fail; both stores are left as they were;
    and in any store at all, a delete that answers 404 has changed
    nothing. *)
Theorem C10_foreign_conversation_looks_absent w req s_absent s_foreign c :
  conversations s_absent !! param_id req = None ->
  conversations s_foreign !! param_id req = Some c ->
  c_userId c <> userId (id_user req) ->
  let get s := run (getConversationById w req) s in
  let del s := run (deleteConversation w req) s in
  fst (get s_absent) = fst (get s_foreign)
  /\ fst (del s_absent) = fst (del s_foreign)
  /\ console (snd (get s_absent)) = console (snd (get s_foreign))
  /\ console (snd (del s_absent)) = console (snd (del s_foreign))
  /\ (db_fault w (Conversation_findOne (param_id req) (userId (id_user req))) = None ->
      fst (get s_foreign) = inr (fail 404 "Conversation not found"))
  /\ (db_fault w (Conversation_findOneAndDelete (param_id req)
                   (userId (id_user req))) = None ->
      fst (del s_foreign) = inr (fail 404 "Conversation not found"))
  /\ store (snd (del s_absent)) = s_absent
  /\ store (snd (del s_foreign)) = s_foreign
  /\ store (snd (get s_foreign)) = s_foreign
  /\ (forall s r st,
        run (deleteConversation w req) s = (inr r, st) -> status r = 404 ->
        store st = s).
Proof.
  intros Habs Hc Hown get del. subst get del. cbv beta.
  pose proof (lookup_absent _ (userId (id_user req)) _ Habs) as Ha.
  pose proof (lookup_foreign _ _ _ _ Hc Hown) as Hf.
  rewrite !(getConversationById_none w req s_absent Ha),
    !(getConversationById_none w req s_foreign Hf),
    !(deleteConversation_none w req s_absent Ha),
    !(deleteConversation_none w req s_foreign Hf).
  split_and!.
  1-4, 7-9: by destruct (db_fault w _).
  - by intros ->.
  - by intros ->.
  - intros s r st. unfold_handler. destruct (db_fault w _).
    + intros [= <- <-]. discriminate.
    + reduce_handler.
      destruct (Conversation.lookup _ _ s); reduce_handler;
        intros [= <- <-]; [discriminate|done].
Qed.

(** ** Starting a conversation *)

Lemma fresh_id_unused (m : gmap Id ConversationDoc) : m !! fresh (dom m) = None.
Proof. apply not_elem_of_dom, is_fresh. Qed.

Ltac not_ok :=
  exfalso;
  match goal with
  | H : status (askQuestion_error _ _) = 200 |- _ =>
      by apply askQuestion_error_not_ok in H
  | H : status _ = 200 |- _ => discriminate H
  end.



(** ** Lookup errors during assembly *)

(** C6 as the specification words it fails: when the history lookup
    raises an error the request is answered 500 and no vendor call is
    made. *)
Lemma C6_history_error_fails_request :
  let w := troubled "openai" is_findOne None in
  let r := run (askQuestion (controller_of "openai") w
                  (ask alice "Q?" (Some 2) false)) sample_store in
  db_fault w (Conversation_findOne 2 10) = Some (a_failure None None)
  /\ fst r
     = inr {| status := 500;
              body := Failure (lit "Internal server error while processing AI request")
                        None None |}
  /\ calls (snd r) = []
  /\ console (snd r)
     = [console_error (lit "AI question error:") [LogError (a_failure None None)]]
  /\ ~ (exists resp call,
          fst r = inr resp /\ status resp = 200 /\ call ∈ calls (snd r)).
Proof.
  split_and!; [reflexivity|by vm_compute|by vm_compute|by vm_compute|].
  intros (resp & call & Hresp & Hstatus & _). vm_compute in Hresp.
  injection Hresp as <-. discriminate Hstatus.
Qed.

(** An error of the history lookup is not caught where it occurs: the
    [catch] block of the handler writes it to the console and answers with
    its error response, and no vendor call is made. *)
Lemma askQuestion_history_error this w req s client e cid :
  ask_errors req = [] ->
  aiService this = Some client ->
  conversationId req = Some cid ->
  db_fault w (Conversation_findOne cid (userId (ask_user req))) = Some e ->
  let r := run (askQuestion this w req) s in
  fst r = inr (askQuestion_error (env w) e)
  /\ calls (snd r) = []
  /\ store (snd r) = s
  /\ last (console (snd r))
     = Some (console_error (lit "AI question error:") [LogError e]).
Proof.
  intros Hvalid Hclient Hid Hfault. cbv zeta. unfold_handler.
  rewrite Hvalid, Hclient, Hid, Hfault.
  rewrite bool_decide_eq_true_2 by done. reduce_handler.
  repeat (case_match; simplify_eq; reduce_handler); split_and!;
    try reflexivity; by rewrite last_snoc.
Qed.

(** C6, as the code has it. On a request that passes validation, with a
    client configured, an error of the entry lookup does not fail the
    request: it is caught where it occurs and written to the console as a
    warning, the entry context is empty, and the request goes on as the same
    request without [includeEntries], with the same response, the same
    vendor calls and the same store. In particular, with "openai"
    configured and no error from the history lookup, the one vendor call is
    made, with a prompt that has no entry context. *)
Theorem C6_entry_lookup_error_degrades this w req s client e :
  ask_errors req = [] ->
  aiService this = Some client ->
  includeEntries req = true ->
  db_fault w (Entry_find (userId (ask_user req)) published 5) = Some e ->
  let r := run (askQuestion this w req) s in
  let r' := run (askQuestion this w (without_entries req)) s in
  fst (assembleEntries w true (userId (ask_user req)) (initial s)) = inr []
  /\ (fst r = fst r'
      /\ store (snd r) = store (snd r')
      /\ calls (snd r) = calls (snd r')
      /\ trace (snd r)
         = Entry_find (userId (ask_user req)) published 5 :: trace (snd r')
      /\ console (snd r)
         = console_warn (lit "Failed to fetch user entries for context:")
             [LogError e] :: console (snd r'))
  /\ (provider_name (env w) = lit "openai" -> client = OpenAI ->
      (forall cid, conversationId req = Some cid ->
                   db_fault w (Conversation_findOne cid (userId (ask_user req)))
                   = None) ->
      exists call,
        calls (snd r) = [call]
        /\ call_prompt call
           = Some (userPrompt (question req) (context req) []
                     (replayed req s))).
Proof.
  intros Hvalid Hclient Hinc Hfault. cbv zeta. split; [|split].
  - unfold_handler. by rewrite Hfault.
  - unfold run, askQuestion.
    cbn [without_entries ask_errors ask_user question context
           includeEntries conversationId temperature maxTokens].
    rewrite Hvalid, Hclient, Hinc. rewrite bool_decide_eq_true_2 by done.
    cbn [negb]. cbv zeta.
    set (op := Entry_find (userId (ask_user req)) published 5) in *.
    set (line := console_warn (lit "Failed to fetch user entries for context:")
                   [LogError e]).
    set (st1 := {| store := s; trace := [op]; calls := []; console := [line] |}).
    assert (assembleEntries w true (userId (ask_user req)) (initial s)
            = (inr [], st1)) as Hent
      by (unfold_handler; fold op; by rewrite Hfault).
    rewrite (try_catch_bind _ _ _ _ _ _ Hent).
    erewrite (try_catch_bind (assembleEntries w false _)); [|reflexivity].
    match goal with
    | |- context [try_catch ?m ?h (initial s)] =>
        assert (framed (try_catch m h)) as Hframed
    end.
    { repeat first [ apply framed_assembleHistory | apply framed_askDispatch
                   | apply framed_saveExchange | framed_step ]. }
    destruct (Hframed [op] [line] st1 (initial s)) as (Hfst & Hs & Hc & Ht & Hl);
      [by split_and!|].
    split_and!; [exact Hfst|exact Hs|exact Hc|exact Ht|exact Hl].
  - intros Hprovider -> Hhistory. unfold replayed.
    unfold_handler.
    rewrite Hvalid, Hclient, Hinc, Hfault, Hprovider.
    rewrite bool_decide_eq_true_2 by done. reduce_handler.
    rewrite (bool_decide_eq_true_2 (lit "openai" = lit "openai")) by done.
    rewrite (bool_decide_eq_true_2 (OpenAI = OpenAI)) by done.
    destruct (conversationId req) as [cid|] eqn:Hid;
      [rewrite (Hhistory cid eq_refl); reduce_handler|];
      repeat (case_match; simplify_eq; reduce_handler); by eexists.
Qed.

(** The update of a continued conversation goes by the id alone: a request
    answered 200 has appended its two messages to the conversation of that
    id, whoever owns it, and left every other conversation as it was. *)
Lemma askQuestion_appends_by_id this w req s cid c r st :
  conversationId req = Some cid ->
  conversations s !! cid = Some c ->
  run (askQuestion this w req) s = (inr r, st) ->
  status r = 200 ->
  exists answer,
    body r = AskData (question req) answer cid (now w) (provider_name (env w))
               (model_name (env w))
    /\ conversations (store st) !! cid
       = Some (Conversation.push (exchange (question req) answer) (now w) c)
    /\ forall other, other <> cid ->
         conversations (store st) !! other = conversations s !! other.
Proof.
  intros Hid Hc Hrun Hok. revert Hrun. unfold_handler. rewrite Hid.
  repeat (case_match; simplify_eq; reduce_handler);
    intros Hrun; simplify_eq; try not_ok.
  all: eexists; split_and!;
    [ reflexivity
    | cbn [conversations]; by rewrite lookup_alter_eq, Hc
    | intros other Hne; cbn [conversations]; by rewrite lookup_alter_ne ].
Qed.

(** ** The theorems at work on the sample data *)

Lemma C2_parseTags_rule_witness :
  let text := lit " a ,,b" in
  let pieces := [lit " a "; lit ""; lit "b"] in
  pieces <> []
  /\ join [comma] pieces = text
  /\ Forall (fun t => comma ∉ t) pieces
  /\ parseTags text = tags_of_tokens pieces
  /\ parseTags text = [lit "a"; lit "b"].
Proof.
  intros text pieces.
  destruct C2_parseTags_rule as (Hrule & _).
  destruct (Hrule text) as ((tokens & _ & _ & _ & Hunique & Htags) & _).
  assert (pieces <> []) as Hne by discriminate.
  assert (join [comma] pieces = text) as Hjoin by reflexivity.
  assert (Forall (fun t => comma ∉ t) pieces) as Hsep.
  { repeat constructor; intros Hin; vm_compute in Hin;
      repeat (apply elem_of_cons in Hin as [?|Hin]; [discriminate|]);
      by apply elem_of_nil in Hin. }
  rewrite <- (Hunique pieces Hne Hjoin Hsep) in Htags.
  split_and!; [exact Hne|exact Hjoin|exact Hsep|exact Htags|].
  by vm_compute.
Defined.

Lemma C3_unconfigured_provider_witness :
  aiService unconfigured = None
  /\ run (askQuestion unconfigured (calm "openai") (ask alice "Q?" None true))
       sample_store
     = (inr (fail 503 "AI service not available. Please check configuration."),
        initial sample_store)
  /\ run (generateTags unconfigured (calm "openai") tags_request) sample_store
     = (inr (fail 503 "AI service not available"), initial sample_store)
  /\ fst (run (getEntrySuggestions unconfigured (calm "openai")
                 {| id_user := alice; param_id := 2 |}) sample_store)
     = inr (fail 403 "Access denied to this entry")
  /\ fst (run (analyzeCulturalSignificance unconfigured (calm "openai")
                 {| id_user := alice; param_id := 1 |}) sample_store)
     = inr (fail 503 "AI service not available").
Proof.
  destruct (C3_unconfigured_provider unconfigured (calm "openai") sample_store
              eq_refl) as (Hask & Htags & Hsuggest & Hanalyze).
  split_and!.
  - reflexivity.
  - exact (Hask (ask alice "Q?" None true)).
  - exact (Htags tags_request).
  - destruct (Hsuggest {| id_user := alice; param_id := 2 |}) as (_ & _ & _ & H).
    exact H.
  - destruct (Hanalyze {| id_user := alice; param_id := 1 |}) as (_ & _ & _ & H).
    exact H.
Defined.


Lemma C6_entry_lookup_error_degrades_witness :
  let req := ask alice "Q?" (Some 2) true in
  let this := controller_of "openai" in
  let e := a_failure None None in
  let w := troubled "openai" is_find None in
  ask_errors req = []
  /\ aiService this = Some OpenAI
  /\ includeEntries req = true
  /\ db_fault w (Entry_find 10 published 5) = Some e
  /\ fst (run (askQuestion this w req) sample_store)
     = fst (run (askQuestion this w (without_entries req)) sample_store)
  /\ (exists call,
        calls (snd (run (askQuestion this w req) sample_store)) = [call]
        /\ call_prompt call
           = Some (userPrompt (lit "Q?") None [] (replayed req sample_store)))
  /\ exists answer,
       fst (run (askQuestion this w req) sample_store)
       = inr (ok (AskData (lit "Q?") (Str answer) 2 7 (lit "openai")
                    (lit "default"))).
Proof.
  intros req this e w.
  assert (aiService this = Some OpenAI) as Hclient by (vm_compute; reflexivity).
  destruct (C6_entry_lookup_error_degrades this w req sample_store OpenAI e
              eq_refl Hclient eq_refl eq_refl)
    as (_ & (Hfst & _) & Hcall).
  split_and!;
    [ reflexivity | exact Hclient | reflexivity | reflexivity | exact Hfst | | ].
  - apply Hcall; [vm_compute; reflexivity|reflexivity|].
    intros cid _. reflexivity.
  - eexists. vm_compute. reflexivity.
Defined.

Lemma C7_replay_last_five_witness :
  let req := ask alice "Q?" (Some 2) false in
  let history :=
    [said user "m3"; said assistant "m4"; said user "m5"; said assistant "m6";
     said user "m7"] in
  conversationId req = Some 2
  /\ conversations sample_store !! 2 = Some alices_conversation
  /\ c_userId alices_conversation = userId (ask_user req)
  /\ length (c_messages alices_conversation) = 7
  /\ fst (assembleHistory (calm "openai") (conversationId req) 10
            (initial sample_store))
     = inr history
  /\ Forall (fun call =>
               call_prompt call
               = Some (userPrompt (lit "Q?") None
                         (referenced (calm "openai") req sample_store) history))
       (calls (snd (run (askQuestion (controller_of "openai") (calm "openai") req)
                      sample_store))).
Proof.
  intros req history.
  assert (conversations sample_store !! 2 = Some alices_conversation) as Hc
    by (vm_compute; reflexivity).
  destruct (C7_replay_last_five (controller_of "openai") (calm "openai") req
              sample_store 2 alices_conversation eq_refl Hc eq_refl)
    as (_ & _ & Hlookup & Hcalls).
  split_and!; [reflexivity|exact Hc|reflexivity|reflexivity| |exact Hcalls].
  exact (Hlookup eq_refl).
Defined.

Lemma C8_reference_budgets_witness :
  let req := ask alice "Q?" None true in
  let w := calm "openai" in
  includeEntries req = true
  /\ db_fault w (Entry_find 10 published 5) = None
  /\ Entry.select 10 published 5 sample_store = [an_entry 1 10 published true]
  /\ fst (assembleEntries w true 10 (initial sample_store))
     = inr (entryContextOf [an_entry 1 10 published true])
  /\ Forall (fun call =>
               call_prompt call
               = Some (userPrompt (lit "Q?") None
                         (entryContextOf [an_entry 1 10 published true])
                         (replayed req sample_store)))
       (calls (snd (run (askQuestion (controller_of "openai") w req)
                      sample_store))).
Proof.
  intros req w.
  destruct (C8_reference_budgets (controller_of "openai") w req sample_store)
    as (_ & _ & _ & Hlookup & _ & _ & _ & Hcalls).
  split_and!; [reflexivity|reflexivity|reflexivity| |].
  - exact (Hlookup eq_refl).
  - exact (Hcalls eq_refl eq_refl).
Defined.

Lemma C9_google_tags_end_in_500_witness :
  let w := calm "google" in
  let this := controller_of "google" in
  AI_PROVIDER (env w) = Some (lit "google")
  /\ tags_errors tags_request = []
  /\ aiService this = Some GoogleGenerativeAI
  /\ fst (run (generateTags this w tags_request) sample_store)
     = inr (fail 500 "Internal server error while generating tags")
  /\ calls (snd (run (generateTags this w tags_request) sample_store)) = []
  /\ exists provider model features,
       fst (run (getServiceStatus this w) sample_store)
       = inr (ok (StatusData true provider model features))
       /\ tagGeneration features = true.
Proof.
  intros w this.
  destruct (C9_google_tags_end_in_500 this w eq_refl)
    as (_ & _ & Hrun & Hclient & Hstatus).
  pose proof (Hclient sdk_ok eq_refl) as Hgoogle.
  split_and!; [reflexivity|reflexivity|exact Hgoogle| | |].
  - by rewrite (Hrun tags_request sample_store GoogleGenerativeAI eq_refl Hgoogle).
  - by rewrite (Hrun tags_request sample_store GoogleGenerativeAI eq_refl Hgoogle).
  - apply Hstatus.
    change (aiService (new_AIController (env w) sdk_ok) <> None).
    rewrite Hgoogle. discriminate.
Defined.

Lemma C10_foreign_conversation_looks_absent_witness :
  let w := calm "openai" in
  let req := {| id_user := alice; param_id := 1 |} in
  let emptied :=
    {| entries := entries sample_store;
       conversations := delete 1 (conversations sample_store);
       users := users sample_store |} in
  conversations emptied !! 1 = None
  /\ conversations sample_store !! 1 = Some bobs_conversation
  /\ c_userId bobs_conversation <> userId alice
  /\ fst (run (getConversationById w req) emptied)
     = fst (run (getConversationById w req) sample_store)
  /\ fst (run (deleteConversation w req) emptied)
     = fst (run (deleteConversation w req) sample_store)
  /\ fst (run (deleteConversation w req) sample_store)
     = inr (fail 404 "Conversation not found")
  /\ store (snd (run (deleteConversation w req) sample_store)) = sample_store.
Proof.
  intros w req emptied.
  assert (conversations emptied !! 1 = None) as Habs by (vm_compute; reflexivity).
  assert (conversations sample_store !! 1 = Some bobs_conversation) as Hc
    by (vm_compute; reflexivity).
  assert (c_userId bobs_conversation <> userId alice) as Hown by discriminate.
  destruct (C10_foreign_conversation_looks_absent w req emptied sample_store
              bobs_conversation Habs Hc Hown)
    as (Hget & Hdel & _ & _ & _ & H404 & _ & Hstore & _).
  split_and!; [exact Habs|exact Hc|exact Hown|exact Hget|exact Hdel| |exact Hstore].
  exact (H404 eq_refl).
Defined.

(** * Further properties of the controller *)

(** ** What a question does to the store *)

(** The ways [askQuestion] can end. It answers; it calls a vendor at most
    once and issues at most three store operations, at most one of them a
    write; and either it answers with a failure and has left the store as
    it was, or it answers 200 with the answer of its dispatch and the id of
    the conversation, after one write, its last store operation. A failure
    is the validation failure, the unavailable service, or the response of
    the [catch] block to an error it has written to the console. *)
Lemma askQuestion_outcome this w req s :
  let out := run (askQuestion this w req) s in
  exists resp,
    fst out = inr resp
    /\ length (calls (snd out)) <= 1
    /\ length (trace (snd out)) <= 3
    /\ length (List.filter is_write (trace (snd out))) <= 1
    /\ Forall (fun call =>
                 provider_name (env w) = lit "openai"
                 /\ call_vendor call = OpenAI
                 /\ call_model call
                    = or_else (OPENAI_MODEL (env w)) (lit "gpt-3.5-turbo")
                 \/ provider_name (env w) = lit "anthropic"
                    /\ call_vendor call = Anthropic
                    /\ call_model call
                       = or_else (ANTHROPIC_MODEL (env w))
                           (lit "claude-3-sonnet-20240229")
                 \/ provider_name (env w) = lit "google"
                    /\ call_vendor call = GoogleGenerativeAI
                    /\ call_model call
                       = or_else (GOOGLE_MODEL (env w)) (lit "gemini-pro"))
         (calls (snd out))
    /\ (status resp <> 200 /\ store (snd out) = s
        /\ (resp = {| status := 400;
                      body := Failure (lit "Validation failed")
                                (Some (ask_errors req)) None |}
            /\ ask_errors req <> []
            \/ resp = fail 503 "AI service not available. Please check configuration."
               /\ aiService this = None
            \/ exists error,
                 resp = askQuestion_error (env w) error
                 /\ last (console (snd out))
                    = Some (console_error (lit "AI question error:")
                              [LogError error]))
        \/ exists answer,
             resp = ok (AskData (question req) answer (persisted_id req s)
                          (now w) (provider_name (env w)) (model_name (env w)))
             /\ store (snd out) = persisted w req answer s
             /\ List.filter is_write (trace (snd out)) = [persist_op w req answer]
             /\ last (trace (snd out)) = Some (persist_op w req answer)
             /\ (answer = Undefined /\ calls (snd out) = []
                 /\ provider_name (env w) <> lit "openai"
                 /\ provider_name (env w) <> lit "anthropic"
                 /\ provider_name (env w) <> lit "google"
                 \/ exists call,
                      calls (snd out) = [call] /\ generate w call = inr answer)).
Proof.
  cbv zeta.
  destruct (run (askQuestion this w req) s) as [res st] eqn:Hrun.
  revert Hrun. unfold_handler.
  repeat (case_match; simplify_eq; reduce_handler);
    intros Hrun; simplify_eq; reduce_handler.
  all: repeat match goal with
         | H : bool_decide (_ = lit _) = true |- _ =>
             apply bool_decide_eq_true_1 in H
         | H : bool_decide (_ = lit _) = false |- _ =>
             apply bool_decide_eq_false_1 in H
         end.
  all: eexists; split; [reflexivity|]; do 3 (split; [simpl; lia|]).
  all: split;
    [ first
        [ apply Forall_nil_2
        | apply Forall_singleton;
          first [ left; split_and!; [assumption|reflexivity|reflexivity]
                | right; left; split_and!; [assumption|reflexivity|reflexivity]
                | right; right; split_and!; [assumption|reflexivity|reflexivity] ] ]
    | ].
  all: first
    [ left; split_and!;
      [ first [apply askQuestion_error_not_ok | discriminate]
      | reflexivity
      | first
          [ right; right; eexists; split; reflexivity
          | right; left; split; reflexivity
          | left; split; [reflexivity|];
            match goal with
            | H : negb (bool_decide _) = true |- _ =>
                apply negb_true_iff, bool_decide_eq_false in H; exact H
            end ] ]
    | right; eexists;
      unfold persisted, persist_op, persisted_id, started;
      match goal with H : conversationId _ = _ |- _ => rewrite H end;
      split_and!;
      [ reflexivity | reflexivity | reflexivity | reflexivity
      | first [ left; split_and!; [reflexivity|reflexivity|assumption..]
              | right; eexists; split; [reflexivity | eassumption] ] ] ].
Qed.

(** A question that is not answered 200 has changed nothing in the store,
    whatever went wrong and however far the request got. *)
Theorem askQuestion_failure_keeps_store this w req s r st :
  run (askQuestion this w req) s = (inr r, st) ->
  status r <> 200 ->
  store st = s.
Proof.
  intros Hrun Hfail.
  destruct (askQuestion_outcome this w req s)
    as (resp & Hresp & _ & _ & _ & _ & [(_ & Hstore & _) | (answer & -> & _)]);
    rewrite Hrun in *; simpl in *; [done|].
  by injection Hresp as ->.
Qed.

(** One question costs at most one vendor call and at most three store
    operations, of which at most one is a write; it never touches the
    entries or the users; and when it is answered 200 the write has been
    issued, as the last store operation of the request. *)
Theorem askQuestion_effect_bounds this w req s :
  let out := run (askQuestion this w req) s in
  length (calls (snd out)) <= 1
  /\ length (trace (snd out)) <= 3
  /\ length (List.filter is_write (trace (snd out))) <= 1
  /\ entries (store (snd out)) = entries s
  /\ users (store (snd out)) = users s
  /\ (forall resp, fst out = inr resp -> status resp = 200 ->
      exists op, is_write op = true
                 /\ List.filter is_write (trace (snd out)) = [op]
                 /\ last (trace (snd out)) = Some op).
Proof.
  cbv zeta.
  destruct (askQuestion_outcome this w req s)
    as (resp & Hresp & Hcalls & Htrace & Hwrites & _
        & [(Hfail & Hstore & _) | (answer & -> & Hstore & Hw & Hlast & _)]);
    rewrite Hstore; split_and!; try done.
  - intros resp' Hresp' Hok. congruence.
  - intros _ _ _. exists (persist_op w req answer). split_and!; [|done|done].
    unfold persist_op. by destruct (conversationId req).
Qed.

(** Conversations are append-only under [askQuestion]: a conversation of
    the store is still there after any question, with its owner, its title
    and its creation time, and with its messages followed by nothing or by
    the two messages of the request. *)
Theorem askQuestion_append_only this w req s id c :
  conversations s !! id = Some c ->
  exists c' added,
    conversations (store (snd (run (askQuestion this w req) s))) !! id = Some c'
    /\ c_userId c' = c_userId c
    /\ c_title c' = c_title c
    /\ c_createdAt c' = c_createdAt c
    /\ c_messages c' = c_messages c ++ added
    /\ (added = []
        \/ conversationId req = Some id
           /\ exists answer, added = exchange (question req) answer).
Proof.
  intros Hc.
  destruct (askQuestion_outcome this w req s)
    as (resp & _ & _ & _ & _ & _ & [(_ & Hstore & _) | (answer & _ & Hstore & _)]);
    rewrite Hstore.
  - exists c, []. rewrite app_nil_r. by split_and!; auto.
  - unfold persisted. cbn [conversations].
    destruct (conversationId req) as [cid|] eqn:Hid.
    + destruct (decide (cid = id)) as [->|Hne].
      * rewrite lookup_alter_eq, Hc. eexists _, _. split_and!; try done.
        right. split; [done|]. by exists answer.
      * rewrite lookup_alter_ne by done.
        exists c, []. rewrite app_nil_r. by split_and!; auto.
    + rewrite lookup_insert_ne.
      * exists c, []. rewrite app_nil_r. by split_and!; auto.
      * intros Heq. pose proof (fresh_id_unused (conversations s)) as Hfresh.
        rewrite Heq in Hfresh. congruence.
Qed.

(** A question that names a conversation which does not exist stores
    nothing: the update finds no document and the handler does not look at
    its result. The store is as before even when the request is answered
    200, and the response then carries the id the request gave. *)
Theorem askQuestion_unknown_conversation this w req s cid :
  conversationId req = Some cid ->
  conversations s !! cid = None ->
  let out := run (askQuestion this w req) s in
  store (snd out) = s
  /\ forall resp, fst out = inr resp -> status resp = 200 ->
       exists answer,
         body resp = AskData (question req) answer cid (now w)
                       (provider_name (env w)) (model_name (env w)).
Proof.
  intros Hid Hnone. cbv zeta.
  destruct (askQuestion_outcome this w req s)
    as (resp & Hresp & _ & _ & _ & _ & [(Hfail & Hstore & _) | (answer & -> & Hstore & _)]).
  - split; [done|]. intros resp' Hresp' Hok. congruence.
  - split.
    + rewrite Hstore. unfold persisted. rewrite Hid, alter_id' by done.
      by destruct s.
    + intros resp' Hresp' _. exists answer.
      rewrite Hresp in Hresp'. injection Hresp' as <-.
      unfold persisted_id. by rewrite Hid.
Qed.

(** What a question stores can be read back. After a question without
    [conversationId] answered 200, reading the conversation by the id of the
    response gives, to the user who asked, the conversation titled with the
    first 100 code units of the question and holding the question and the
    answer; to any other user it gives 404. *)
Theorem conversation_round_trip this w req s r st :
  conversationId req = None ->
  run (askQuestion this w req) s = (inr r, st) ->
  status r = 200 ->
  exists id answer,
    body r = AskData (question req) answer id (now w)
               (provider_name (env w)) (model_name (env w))
    /\ forall w' reader,
         db_fault w' (Conversation_findOne id (userId reader)) = None ->
         fst (run (getConversationById w' {| id_user := reader; param_id := id |})
                (store st))
         = inr (if bool_decide (userId reader = userId (ask_user req))
                then ok (ConversationData id (started w req answer))
                else fail 404 "Conversation not found").
Proof.
  intros Hid Hrun Hok.
  destruct (askQuestion_outcome this w req s)
    as (resp & Hresp & _ & _ & _ & _ & [(Hfail & Hstore & _) | (answer & -> & Hstore & _)]);
    rewrite Hrun in *; simpl in *; injection Hresp as ->; [done|].
  exists (persisted_id req s), answer. split; [done|].
  intros w' reader Hfault. unfold_handler. cbn [param_id id_user].
  rewrite Hfault. reduce_handler.
  rewrite Hstore. unfold Conversation.lookup, persisted, persisted_id.
  rewrite Hid. cbn [conversations]. rewrite lookup_insert_eq.
  cbn [started c_userId].
  rewrite (bool_decide_ext (userId (ask_user req) = userId reader)
             (userId reader = userId (ask_user req))) by done.
  by destruct (bool_decide (userId reader = userId (ask_user req))).
Qed.

(** A response of [askQuestion] carries the text of an error only in
    development mode and only with status 500, and the text is the message
    of the error the handler has written to the console last. *)
Theorem askQuestion_error_detail this w req s r st message errors detail :
  run (askQuestion this w req) s = (inr r, st) ->
  body r = Failure message errors (Some detail) ->
  NODE_ENV (env w) = Some (lit "development")
  /\ status r = 500
  /\ exists error,
       detail = err_message error
       /\ last (console st)
          = Some (console_error (lit "AI question error:") [LogError error]).
Proof.
  intros Hrun Hbody.
  destruct (askQuestion_outcome this w req s)
    as (resp & Hresp & _ & _ & _ & _
        & [(_ & _ & [[-> _] | [[-> _] | (error & -> & Hlog)]])
          | (answer & -> & _)]);
    rewrite Hrun in *; simpl in *; injection Hresp as ->;
    try discriminate Hbody.
  revert Hbody. unfold askQuestion_error.
  destruct (code_is error "insufficient_quota" || status_is error 429);
    [discriminate|].
  destruct (code_is error "rate_limit_exceeded" || status_is error 429);
    [discriminate|].
  destruct (code_is error "context_length_exceeded"); [discriminate|].
  cbn [body status]. case_bool_decide as Hdev; [|discriminate].
  intros [= _ _ <-]. split_and!; [done|done|]. by exists error.
Qed.

(** ** Reading and deleting conversations *)

(** [getConversationById] never changes the store and never calls a
    vendor, whatever it answers; and it answers 200 only with a conversation
    of the requester: the one the store holds under the id. *)
Theorem getConversationById_only_own w req s r st :
  run (getConversationById w req) s = (inr r, st) ->
  store st = s
  /\ calls st = []
  /\ (status r = 200 ->
      exists c,
        body r = ConversationData (param_id req) c
        /\ conversations s !! param_id req = Some c
        /\ c_userId c = userId (id_user req)).
Proof.
  unfold_handler. unfold Conversation.lookup.
  repeat (case_match; simplify_eq; reduce_handler);
    intros Hrun; simplify_eq.
  all: split; [reflexivity|]; split; [reflexivity|].
  all: intros Hok; try discriminate Hok.
  eexists. split_and!; try reflexivity.
  match goal with H : bool_decide _ = true |- _ => exact (bool_decide_eq_true_1 _ H) end.
Qed.

(** The owner's delete removes the conversation and nothing else: it is
    answered 200, the store has lost exactly that id, and afterwards the
    same user reads 404 under the id and a second delete is answered 404 and
    changes nothing. *)
Theorem deleteConversation_removes_own w req s c :
  conversations s !! param_id req = Some c ->
  c_userId c = userId (id_user req) ->
  db_fault w (Conversation_findOneAndDelete (param_id req) (userId (id_user req)))
  = None ->
  let out := run (deleteConversation w req) s in
  fst out = inr (ok (Deleted (lit "Conversation deleted successfully")))
  /\ store (snd out)
     = {| entries := entries s;
          conversations := delete (param_id req) (conversations s);
          users := users s |}
  /\ conversations (store (snd out)) !! param_id req = None
  /\ (forall other, other <> param_id req ->
        conversations (store (snd out)) !! other = conversations s !! other)
  /\ (db_fault w (Conversation_findOne (param_id req) (userId (id_user req))) = None ->
      fst (run (getConversationById w req) (store (snd out)))
      = inr (fail 404 "Conversation not found"))
  /\ fst (run (deleteConversation w req) (store (snd out)))
     = inr (fail 404 "Conversation not found")
  /\ store (snd (run (deleteConversation w req) (store (snd out))))
     = store (snd out).
Proof.
  intros Hc Hown Hok. cbv zeta.
  assert (run (deleteConversation w req) s
          = (inr (ok (Deleted (lit "Conversation deleted successfully"))),
             {| store := {| entries := entries s;
                            conversations := delete (param_id req) (conversations s);
                            users := users s |};
                trace := [Conversation_findOneAndDelete (param_id req)
                            (userId (id_user req))];
                calls := []; console := [] |})) as Hrun.
  { unfold_handler. rewrite Hok. unfold Conversation.lookup. rewrite Hc.
    by rewrite bool_decide_eq_true_2. }
  rewrite Hrun. cbn [fst snd store conversations].
  assert (Conversation.lookup (param_id req) (userId (id_user req))
            {| entries := entries s;
               conversations := delete (param_id req) (conversations s);
               users := users s |} = None) as Hgone.
  { apply lookup_absent. cbn [conversations]. apply lookup_delete_eq. }
  split_and!; try done.
  - apply lookup_delete_eq.
  - intros other Hne. by apply lookup_delete_ne.
  - intros Hget. rewrite (getConversationById_none _ _ _ Hgone). by rewrite Hget.
  - rewrite (deleteConversation_none _ _ _ Hgone). by rewrite Hok.
  - rewrite (deleteConversation_none _ _ _ Hgone). by rewrite Hok.
Qed.

(** ** The handlers that work on an entry *)

(** [getEntrySuggestions] calls a vendor, or answers 200, only for an entry
    that exists and that the requester wrote, or that is public, or as an
    administrator; the title in a 200 response is that entry's. *)
Theorem getEntrySuggestions_access this w req s r st :
  run (getEntrySuggestions this w req) s = (inr r, st) ->
  status r = 200 \/ calls st <> [] ->
  exists entry,
    Entry.lookup (param_id req) s = Some entry
    /\ canAccess (id_user req) (e_author entry) entry = true
    /\ (status r = 200 ->
        exists suggestions,
          body r = SuggestionsData (param_id req) (e_title entry) suggestions (now w)).
Proof.
  unfold canAccess. unfold_handler.
  repeat (case_match; simplify_eq; reduce_handler);
    intros Hrun Hgo; simplify_eq;
    try (destruct Hgo as [Hgo|Hgo]; [discriminate Hgo|by destruct Hgo]).
  all: eexists; split_and!; [first [reflexivity|eassumption]| |];
    first [ by intros [=]
          | intros _; eexists; reflexivity
          | match goal with
            | H : negb ?b = false |- ?b = true => by destruct b
            end ].
Qed.

(** [analyzeCulturalSignificance] calls a vendor, or answers 200, only for
    an entry that exists, whose author still exists, and that the requester
    wrote, or that is public, or as an administrator. *)
Theorem analyzeCulturalSignificance_access this w req s r st :
  run (analyzeCulturalSignificance this w req) s = (inr r, st) ->
  status r = 200 \/ calls st <> [] ->
  exists entry author,
    Entry.lookup (param_id req) s = Some entry
    /\ List.find (fun u => bool_decide (u_id u = e_author entry)) (users s)
       = Some author
    /\ canAccess (id_user req) (u_id author) entry = true
    /\ (status r = 200 ->
        exists analysis,
          body r = AnalysisData (param_id req) (e_title entry) analysis (now w)).
Proof.
  unfold canAccess. unfold_handler.
  repeat (case_match; simplify_eq; reduce_handler);
    intros Hrun Hgo; simplify_eq;
    try (destruct Hgo as [Hgo|Hgo]; [discriminate Hgo|by destruct Hgo]).
  all: eexists _, _; split_and!;
    [first [reflexivity|eassumption]|first [reflexivity|eassumption]| |];
    first [ by intros [=]
          | intros _; eexists; reflexivity
          | match goal with
            | H : negb ?b = false |- ?b = true => by destruct b
            end ].
Qed.

(** The two entry handlers only read: whatever the request and however it
    ends, the store is as before, the one store operation is the read of the
    entry, at most one vendor call is made, and a response is given. *)
Theorem entry_handlers_read_only this w req s :
  let suggest := run (getEntrySuggestions this w req) s in
  let analyze := run (analyzeCulturalSignificance this w req) s in
  (store (snd suggest) = s
   /\ trace (snd suggest) = [Entry_findById (param_id req) false]
   /\ length (calls (snd suggest)) <= 1
   /\ exists resp, fst suggest = inr resp)
  /\ (store (snd analyze) = s
      /\ trace (snd analyze) = [Entry_findById (param_id req) true]
      /\ length (calls (snd analyze)) <= 1
      /\ exists resp, fst analyze = inr resp).
Proof.
  cbv zeta. split.
  - unfold_handler. repeat (case_match; simplify_eq; reduce_handler);
      split_and!; try reflexivity; try (simpl; lia); by eexists.
  - unfold_handler. repeat (case_match; simplify_eq; reduce_handler);
      split_and!; try reflexivity; try (simpl; lia); by eexists.
Qed.

(** An entry whose author no longer exists cannot be analysed by anyone:
    the access test reads the id of the populated author, which is null, and
    the request ends in 500 without a vendor call, also for an administrator
    and for a public entry. *)
Theorem analyzeCulturalSignificance_needs_author this w req s entry :
  Entry.lookup (param_id req) s = Some entry ->
  List.find (fun u => bool_decide (u_id u = e_author entry)) (users s) = None ->
  db_fault w (Entry_findById (param_id req) true) = None ->
  let out := run (analyzeCulturalSignificance this w req) s in
  fst out
  = inr (fail 500 "Internal server error while analyzing cultural significance")
  /\ calls (snd out) = []
  /\ console (snd out)
     = [console_error (lit "Analyze cultural significance error:")
          [LogError (TypeError "Cannot read properties of null (reading '_id')")]].
Proof.
  intros Hentry Hauthor Hok. cbv zeta. unfold_handler.
  rewrite Hok. reduce_handler. rewrite Hentry. reduce_handler.
  by rewrite Hauthor.
Qed.

(** ** The provider configuration *)

Lemma initializeAIService_outcome e sdk v :
  (fst (initializeAIService e sdk) = Some v
   <-> toLowerCase (provider_name e) = vendor_name v /\ sdk v = None)
  /\ length (snd (initializeAIService e sdk))
     = match fst (initializeAIService e sdk) with Some _ => 0 | None => 1 end.
Proof.
  unfold initializeAIService, provider_name, JS.eqb.
  set (name := toLowerCase (or_else (AI_PROVIDER e) (lit "openai"))).
  repeat case_bool_decide.
  4:{ split; [|done]. split; [done|]. intros [Hname _]. by destruct v. }
  all: match goal with
       | |- context [match ?x with _ => _ end] => destruct x eqn:Hsdk
       end;
    cbn [fst snd length]; (split; [|done]); split;
    try discriminate;
    try (intros [= <-]; by split);
    intros [Hname Hload];
    match goal with
    | H : _ = lit _ |- _ =>
        rewrite H in Hname; destruct v; vm_compute in Hname;
        try discriminate Hname; congruence
    end.
Qed.

Lemma initializeAIService_client_iff e sdk v :
  fst (initializeAIService e sdk) = Some v
  <-> toLowerCase (provider_name e) = vendor_name v /\ sdk v = None.
Proof. apply initializeAIService_outcome. Qed.

(** The constructor holds the client of a vendor exactly when the
    configured name, openai when none is set, is that vendor's name up to the
    case of its ASCII letters and the vendor's SDK loads; it writes one line
    to the console when it holds no client and none when it holds one. *)
Theorem initializeAIService_client e sdk v :
  (aiService (new_AIController e sdk) = Some v
   <-> toLowerCase (provider_name e) = vendor_name v /\ sdk v = None)
  /\ length (snd (initializeAIService e sdk))
     = match aiService (new_AIController e sdk) with Some _ => 0 | None => 1 end.
Proof. apply initializeAIService_outcome. Qed.

Lemma invoke_own_client w client call st :
  call_vendor call = client ->
  (content <- invoke w client call ;; ret content) st
  = (generate w call,
     {| store := store st; trace := trace st; calls := calls st ++ [call];
        console := console st |}).
Proof.
  intros <-. unfold bind, invoke, ret.
  rewrite bool_decide_eq_true_2 by reflexivity.
  by destruct (generate w call).
Qed.

(** The client the constructor holds is the one the dispatch of the
    handlers calls. With that client, the dispatch of [askQuestion] and the
    one of the other three handlers either run no branch, the configured
    name being none they test for, and give [undefined] without a call; or
    make one call, of a method of the vendor of that very client, and give
    what it gives. A branch never reaches for a method of another vendor's
    client. *)
Theorem client_matches_branch w sdk client :
  aiService (new_AIController (env w) sdk) = Some client ->
  (forall userPrompt maxTokens temperature st,
     let out := askDispatch w client userPrompt maxTokens temperature st in
     provider_name (env w) <> lit "openai"
     /\ provider_name (env w) <> lit "anthropic"
     /\ provider_name (env w) <> lit "google"
     /\ out = (inr Undefined, st)
     \/ exists call,
          call_vendor call = client
          /\ out = (generate w call,
                    {| store := store st; trace := trace st;
                       calls := calls st ++ [call]; console := console st |}))
  /\ (forall openai_default system prompt max_tokens temperature st,
        let out := generateText w client openai_default system prompt
                     max_tokens temperature st in
        provider_name (env w) <> lit "openai"
        /\ provider_name (env w) <> lit "anthropic"
        /\ out = (inr Undefined, st)
        \/ exists call,
             call_vendor call = client
             /\ out = (generate w call,
                       {| store := store st; trace := trace st;
                          calls := calls st ++ [call]; console := console st |})).
Proof.
  intros Hclient. unfold new_AIController in Hclient. cbn in Hclient.
  apply (initializeAIService_client_iff (env w) sdk client) in Hclient
    as [Hlower _].
  split; cbv zeta; intros; unfold askDispatch, generateText, JS.eqb; cbv zeta;
    repeat case_bool_decide;
    try (left; by split_and!);
    right;
    match goal with
    | H : provider_name _ = lit _ |- _ => rewrite H in Hlower
    end;
    destruct client; try discriminate Hlower;
    eexists; (split; [|apply invoke_own_client]); reflexivity.
Qed.

(** A configured name that differs from the three names only in case
    still gives the controller a client, but matches no branch of the
    dispatch: [askQuestion] then never calls a vendor, and what it answers
    with status 200 is an undefined answer, stored as the assistant's
    message. *)
Theorem askQuestion_without_branch this w req s :
  provider_name (env w) <> lit "openai" ->
  provider_name (env w) <> lit "anthropic" ->
  provider_name (env w) <> lit "google" ->
  let out := run (askQuestion this w req) s in
  calls (snd out) = []
  /\ forall resp, fst out = inr resp -> status resp = 200 ->
       resp = ok (AskData (question req) Undefined (persisted_id req s) (now w)
                    (provider_name (env w)) (model_name (env w)))
       /\ store (snd out) = persisted w req Undefined s.
Proof.
  intros Hopenai Hanthropic Hgoogle. cbv zeta.
  unfold persisted, persisted_id, started. unfold_handler.
  rewrite !(bool_decide_eq_false_2 (provider_name (env w) = _)) by done.
  reduce_handler.
  repeat (case_match; simplify_eq; reduce_handler).
  all: split; [reflexivity|]; intros resp [= <-] Hok;
    first [ by apply askQuestion_error_not_ok in Hok
          | discriminate Hok
          | split; reflexivity ].
Qed.

(** With no provider name set the constructor falls back to openai, the
    status endpoint to the word none: the controller then holds the OpenAI
    client and the status says the service is available, with every
    feature, from the provider "none", while a question is dispatched to
    openai. *)
Theorem status_names_no_default e sdk w s :
  truthy (AI_PROVIDER e) = false ->
  sdk OpenAI = None ->
  env w = e ->
  let this := new_AIController e sdk in
  aiService this = Some OpenAI
  /\ provider_name e = lit "openai"
  /\ run (getServiceStatus this w) s
     = (inr (ok (StatusData true (lit "none") (model_name e)
                   {| questionsAndAnswers := true;
                      conversationHistory := true;
                      entrySuggestions := true;
                      tagGeneration := true;
                      culturalAnalysis := true |})),
        initial s).
Proof.
  intros Hunset Hsdk <-. cbv zeta.
  assert (or_else (AI_PROVIDER (env w)) (lit "openai") = lit "openai"
          /\ or_else (AI_PROVIDER (env w)) (lit "none") = lit "none") as [Ho Hn].
  { by destruct (AI_PROVIDER (env w)) as [[|? ?]|]. }
  assert (aiService (new_AIController (env w) sdk) = Some OpenAI) as Hclient.
  { apply initializeAIService_client_iff. unfold provider_name. rewrite Ho.
    by split. }
  split_and!; [done|done|].
  unfold_handler. rewrite Hclient, Hn. by rewrite bool_decide_eq_true_2.
Qed.

(** ** The variants *)

(** When the configured name is neither openai nor anthropic, the two
    entry handlers answer 200 to a requester with access, with an undefined
    text and without any vendor call. *)
Theorem entry_handlers_without_branch this w req s client entry :
  provider_name (env w) <> lit "openai" ->
  provider_name (env w) <> lit "anthropic" ->
  aiService this = Some client ->
  Entry.lookup (param_id req) s = Some entry ->
  (db_fault w (Entry_findById (param_id req) false) = None ->
   canAccess (id_user req) (e_author entry) entry = true ->
   run (getEntrySuggestions this w req) s
   = (inr (ok (SuggestionsData (param_id req) (e_title entry) Undefined (now w))),
      {| store := s; trace := [Entry_findById (param_id req) false];
         calls := []; console := [] |}))
  /\ (forall author,
        db_fault w (Entry_findById (param_id req) true) = None ->
        List.find (fun u => bool_decide (u_id u = e_author entry)) (users s)
        = Some author ->
        canAccess (id_user req) (u_id author) entry = true ->
        run (analyzeCulturalSignificance this w req) s
        = (inr (ok (AnalysisData (param_id req) (e_title entry) Undefined (now w))),
           {| store := s; trace := [Entry_findById (param_id req) true];
              calls := []; console := [] |})).
Proof.
  intros Hopenai Hanthropic Hclient Hentry. unfold canAccess. split.
  - intros Hok Hacc. unfold_handler.
    rewrite !(bool_decide_eq_false_2 (provider_name (env w) = _)) by done.
    rewrite Hok. reduce_handler. rewrite Hentry. reduce_handler.
    rewrite Hacc. cbn [negb]. by rewrite Hclient.
  - intros author Hok Hauthor Hacc. unfold_handler.
    rewrite !(bool_decide_eq_false_2 (provider_name (env w) = _)) by done.
    rewrite Hok. reduce_handler. rewrite Hentry. reduce_handler.
    rewrite Hauthor, Hacc. cbn [negb]. by rewrite Hclient.
Qed.

(** [generateTags] never touches the store and calls a vendor at most
    once. What it answers with status 200 are the tags parsed from the text
    of that call, at most 15 of them, with their number as the count. *)
Theorem generateTags_answer this w req s :
  let out := run (generateTags this w req) s in
  store (snd out) = s
  /\ trace (snd out) = []
  /\ length (calls (snd out)) <= 1
  /\ exists resp,
       fst out = inr resp
       /\ (status resp = 200 ->
           exists call text,
             calls (snd out) = [call]
             /\ generate w call = inr (Str text)
             /\ body resp = TagsData (parseTags text) (length (parseTags text))
                              (now w)
             /\ length (parseTags text) <= 15).
Proof.
  cbv zeta. unfold_handler.
  repeat (case_match; simplify_eq; reduce_handler).
  all: split_and!; [reflexivity|reflexivity|simpl; lia|].
  all: eexists; split; [reflexivity|]; intros Hok; try discriminate Hok.
  all: eexists _, _; split_and!; [reflexivity|eassumption|reflexivity|].
  all: unfold parseTags, slice0; rewrite length_take; lia.
Qed.

(** The variants have one answer to every error. When the vendor refuses
    the call, [generateTags] answers a valid request with the same 500 and
    the same message whatever the error is, a quota or rate-limit error
    included; and the response carries nothing of the error. *)
Theorem generateTags_flattens_errors this w req s client e :
  tags_errors req = [] ->
  aiService this = Some client ->
  (forall call, generate w call = inl e) ->
  let out := run (generateTags this w req) s in
  fst out = inr (fail 500 "Internal server error while generating tags")
  /\ store (snd out) = s
  /\ exists logged,
       console (snd out)
       = [console_error (lit "Generate tags error:") [LogError logged]].
Proof.
  intros Hvalid Hclient Hrefuse. cbv zeta. unfold_handler.
  rewrite Hvalid, Hclient. rewrite bool_decide_eq_true_2 by done.
  reduce_handler.
  repeat (case_match; simplify_eq; reduce_handler);
    try (split_and!; [reflexivity|reflexivity|by eexists]).
  all: match goal with
       | H : generate _ _ = inr _ |- _ => by rewrite Hrefuse in H
       end.
Qed.

(** ** The conversation list *)

(** The summaries of the conversation list. When the map succeeds there is
    one summary for each conversation, in order, with its id, the number of
    its messages, and as preview the first 100 code units of the content of
    its last message, or the empty string when it has no message. The map
    throws exactly when the last message of one of the conversations has no
    content. *)
Theorem conversationsWithCount_summaries conversations :
  match conversationsWithCount conversations with
  | inr summaries =>
      Forall2
        (fun conv summary =>
           sum_id summary = fst conv
           /\ sum_messages summary = c_messages (snd conv)
           /\ messageCount summary = length (c_messages (snd conv))
           /\ length (lastMessage summary) <= 100
           /\ match last (c_messages (snd conv)) with
              | None => lastMessage summary = []
              | Some m =>
                  exists text,
                    content m = Str text /\ lastMessage summary = take 100 text
              end)
        conversations summaries
  | inl _ =>
      Exists
        (fun conv =>
           exists m,
             last (c_messages (snd conv)) = Some m
             /\ (content m = Undefined \/ content m = Null))
        conversations
  end.
Proof.
  induction conversations as [|conv rest IH]; simpl; [constructor|].
  unfold withCount, lastMessageOf.
  destruct (last (c_messages conv.2)) as [m|] eqn:Hlast;
    [destruct (content m) as [| |text] eqn:Hcontent|].
  - apply Exists_cons_hd. exists m. auto.
  - apply Exists_cons_hd. exists m. auto.
  - destruct (conversationsWithCount rest); [by apply Exists_cons_tl|].
    constructor; [|done]. cbn [sum_id sum_messages messageCount lastMessage].
    rewrite Hlast.
    assert (or_else (Some (substring0 100 text)) [] = take 100 text) as ->
      by (unfold substring0; by destruct text).
    split_and!; try done; [rewrite length_take; lia|by exists text].
  - destruct (conversationsWithCount rest); [by apply Exists_cons_tl|].
    constructor; [|done]. cbn [sum_id sum_messages messageCount lastMessage].
    rewrite Hlast. split_and!; try done. simpl. lia.
Qed.

(** ** The model a response names *)

Lemma model_name_first_set e :
  (forall m, OPENAI_MODEL e = Some m -> m <> [] -> model_name e = m)
  /\ (forall m, truthy (OPENAI_MODEL e) = false ->
       ANTHROPIC_MODEL e = Some m -> m <> [] -> model_name e = m)
  /\ (forall m, truthy (OPENAI_MODEL e) = false ->
       truthy (ANTHROPIC_MODEL e) = false ->
       GOOGLE_MODEL e = Some m -> m <> [] -> model_name e = m)
  /\ (truthy (OPENAI_MODEL e) = false ->
      truthy (ANTHROPIC_MODEL e) = false ->
      truthy (GOOGLE_MODEL e) = false -> model_name e = lit "default").
Proof.
  unfold model_name.
  destruct (OPENAI_MODEL e) as [[|? ?]|], (ANTHROPIC_MODEL e) as [[|? ?]|],
    (GOOGLE_MODEL e) as [[|? ?]|];
    split_and!; intros; simplify_eq; done.
Qed.

(** The response of [askQuestion] names the first model that is set among
    the three model variables, in the order OPENAI_MODEL, ANTHROPIC_MODEL,
    GOOGLE_MODEL, and the word default when none is set, whatever the
    provider; a variable set to the empty string counts as not set. Every
    vendor call, of any run, names the model of the branch that made it:
    the model variable of the configured provider, or that provider's
    default. So with anthropic configured and only OPENAI_MODEL set, the
    response names the OpenAI model while the call went to the Anthropic
    default. *)
Theorem response_names_first_model_set this w req s r st :
  run (askQuestion this w req) s = (inr r, st) ->
  (status r = 200 ->
   exists answer id model,
     body r = AskData (question req) answer id (now w) (provider_name (env w))
                model
     /\ (forall m, OPENAI_MODEL (env w) = Some m -> m <> [] -> model = m)
     /\ (forall m, truthy (OPENAI_MODEL (env w)) = false ->
          ANTHROPIC_MODEL (env w) = Some m -> m <> [] -> model = m)
     /\ (forall m, truthy (OPENAI_MODEL (env w)) = false ->
          truthy (ANTHROPIC_MODEL (env w)) = false ->
          GOOGLE_MODEL (env w) = Some m -> m <> [] -> model = m)
     /\ (truthy (OPENAI_MODEL (env w)) = false ->
         truthy (ANTHROPIC_MODEL (env w)) = false ->
         truthy (GOOGLE_MODEL (env w)) = false -> model = lit "default"))
  /\ Forall (fun call =>
               provider_name (env w) = lit "openai"
               /\ call_model call
                  = or_else (OPENAI_MODEL (env w)) (lit "gpt-3.5-turbo")
               \/ provider_name (env w) = lit "anthropic"
                  /\ call_model call
                     = or_else (ANTHROPIC_MODEL (env w))
                         (lit "claude-3-sonnet-20240229")
               \/ provider_name (env w) = lit "google"
                  /\ call_model call
                     = or_else (GOOGLE_MODEL (env w)) (lit "gemini-pro"))
       (calls st).
Proof.
  intros Hrun.
  destruct (askQuestion_outcome this w req s)
    as (resp & Hresp & _ & _ & _ & Hcalls
        & [(Hfail & _) | (answer & -> & _)]);
    rewrite Hrun in *; simpl in *; injection Hresp as ->.
  all: split;
    [ | eapply Forall_impl; [exact Hcalls|];
        intros call [(? & _ & ?)|[(? & _ & ?)|(? & _ & ?)]]; auto ].
  - intros Hok. by destruct Hfail.
  - intros _. exists answer, (persisted_id req s), (model_name (env w)).
    split; [reflexivity|]. apply model_name_first_set.
Qed.

(** ** The further properties at work on the sample data *)

Lemma askQuestion_failure_keeps_store_witness :
  let w := troubled "openai" (fun _ => false)
             (Some (a_failure (Some "insufficient_quota"%string) None)) in
  let out := run (askQuestion (controller_of "openai") w (ask alice "Q?" None false))
               sample_store in
  let r := fail 503 "AI service quota exceeded. Please try again later." in
  out = (inr r, snd out)
  /\ status r <> 200
  /\ length (calls (snd out)) = 1
  /\ store (snd out) = sample_store.
Proof.
  intros w out r.
  assert (out = (inr r, snd out)) as Hrun by (vm_compute; reflexivity).
  assert (status r <> 200) as Hfail by discriminate.
  split_and!; [exact Hrun|exact Hfail|reflexivity|].
  exact (askQuestion_failure_keeps_store (controller_of "openai") w
           (ask alice "Q?" None false) sample_store r (snd out) Hrun Hfail).
Defined.

Lemma askQuestion_append_only_witness :
  let out := run (askQuestion (controller_of "openai") (calm "openai")
                    (ask alice "Q?" (Some 2) false)) sample_store in
  conversations sample_store !! 2 = Some alices_conversation
  /\ exists c' added,
       conversations (store (snd out)) !! 2 = Some c'
       /\ c_userId c' = 10
       /\ c_title c' = lit "Masks"
       /\ c_createdAt c' = 2
       /\ c_messages c' = c_messages alices_conversation ++ added
       /\ (added = []
           \/ conversationId (ask alice "Q?" (Some 2) false) = Some 2
              /\ exists answer, added = exchange (lit "Q?") answer).
Proof.
  intros out.
  assert (conversations sample_store !! 2 = Some alices_conversation) as Hc
    by (vm_compute; reflexivity).
  split; [exact Hc|].
  exact (askQuestion_append_only (controller_of "openai") (calm "openai")
           (ask alice "Q?" (Some 2) false) sample_store 2 alices_conversation Hc).
Defined.

Lemma askQuestion_unknown_conversation_witness :
  let req := ask alice "Q?" (Some 99) false in
  let out := run (askQuestion (controller_of "openai") (calm "openai") req)
               sample_store in
  conversationId req = Some 99
  /\ conversations sample_store !! 99 = None
  /\ fst out = inr (ok (AskData (lit "Q?") (Str (lit "An answer.")) 99 7
                          (lit "openai") (lit "default")))
  /\ store (snd out) = sample_store.
Proof.
  intros req out.
  assert (conversations sample_store !! 99 = None) as Hnone
    by (vm_compute; reflexivity).
  destruct (askQuestion_unknown_conversation (controller_of "openai")
              (calm "openai") req sample_store 99 eq_refl Hnone) as [Hstore _].
  split_and!; [reflexivity|exact Hnone|vm_compute; reflexivity|exact Hstore].
Defined.

Lemma conversation_round_trip_witness :
  let req := ask alice "Q?" None true in
  let out := run (askQuestion (controller_of "openai") (calm "openai") req)
               sample_store in
  let r := ok (AskData (lit "Q?") (Str (lit "An answer.")) 3 7 (lit "openai")
                 (lit "default")) in
  conversationId req = None
  /\ out = (inr r, snd out)
  /\ status r = 200
  /\ exists id answer,
       body r = AskData (lit "Q?") answer id 7 (lit "openai") (lit "default")
       /\ fst (run (getConversationById (calm "openai")
                      {| id_user := alice; param_id := id |}) (store (snd out)))
          = inr (ok (ConversationData id (started (calm "openai") req answer)))
       /\ fst (run (getConversationById (calm "openai")
                      {| id_user := bob; param_id := id |}) (store (snd out)))
          = inr (fail 404 "Conversation not found").
Proof.
  intros req out r.
  assert (out = (inr r, snd out)) as Hrun by (vm_compute; reflexivity).
  split_and!; [reflexivity|exact Hrun|reflexivity|].
  destruct (conversation_round_trip (controller_of "openai") (calm "openai") req
              sample_store r (snd out) eq_refl Hrun eq_refl)
    as (id & answer & Hbody & Hread).
  exists id, answer. split_and!; [exact Hbody| |].
  - exact (Hread (calm "openai") alice eq_refl).
  - exact (Hread (calm "openai") bob eq_refl).
Defined.

Lemma askQuestion_appends_by_id_witness :
  let req := ask alice "Q?" (Some 2) false in
  let out := run (askQuestion (controller_of "openai") (calm "openai") req)
               sample_store in
  let r := ok (AskData (lit "Q?") (Str (lit "An answer.")) 2 7 (lit "openai")
                 (lit "default")) in
  conversationId req = Some 2
  /\ conversations sample_store !! 2 = Some alices_conversation
  /\ out = (inr r, snd out)
  /\ status r = 200
  /\ exists answer,
       conversations (store (snd out)) !! 2
       = Some (Conversation.push (exchange (lit "Q?") answer) 7 alices_conversation)
       /\ conversations (store (snd out)) !! 1 = conversations sample_store !! 1.
Proof.
  intros req out r.
  assert (conversations sample_store !! 2 = Some alices_conversation) as Hc
    by (vm_compute; reflexivity).
  assert (out = (inr r, snd out)) as Hrun by (vm_compute; reflexivity).
  split_and!; [reflexivity|exact Hc|exact Hrun|reflexivity|].
  destruct (askQuestion_appends_by_id (controller_of "openai") (calm "openai") req
              sample_store 2 alices_conversation r (snd out) eq_refl Hc Hrun eq_refl)
    as (answer & _ & Hpushed & Hothers).
  exists answer. split; [exact Hpushed|]. apply Hothers. discriminate.
Defined.

Lemma askQuestion_error_detail_witness :
  let w := unset_world (Some (a_failure None None)) in
  let out := run (askQuestion (new_AIController env_unset sdk_ok) w
                    (ask alice "Q?" None false)) sample_store in
  let r := {| status := 500;
              body := Failure (lit "Internal server error while processing AI request")
                        None (Some (lit "failed")) |} in
  out = (inr r, snd out)
  /\ NODE_ENV (env w) = Some (lit "development")
  /\ status r = 500
  /\ exists error,
       lit "failed" = err_message error
       /\ last (console (snd out))
          = Some (console_error (lit "AI question error:") [LogError error]).
Proof.
  intros w out r.
  assert (out = (inr r, snd out)) as Hrun by (vm_compute; reflexivity).
  split; [exact Hrun|].
  exact (askQuestion_error_detail (new_AIController env_unset sdk_ok) w
           (ask alice "Q?" None false) sample_store r (snd out)
           (lit "Internal server error while processing AI request") None
           (lit "failed") Hrun eq_refl).
Defined.

Lemma getConversationById_only_own_witness :
  let req := {| id_user := alice; param_id := 2 |} in
  let out := run (getConversationById (calm "openai") req) sample_store in
  let r := ok (ConversationData 2 alices_conversation) in
  out = (inr r, snd out)
  /\ store (snd out) = sample_store
  /\ calls (snd out) = []
  /\ (status r = 200 ->
      exists c,
        body r = ConversationData 2 c
        /\ conversations sample_store !! 2 = Some c
        /\ c_userId c = 10).
Proof.
  intros req out r.
  assert (out = (inr r, snd out)) as Hrun by (vm_compute; reflexivity).
  split; [exact Hrun|].
  exact (getConversationById_only_own (calm "openai") req sample_store r (snd out)
           Hrun).
Defined.

Lemma deleteConversation_removes_own_witness :
  let req := {| id_user := alice; param_id := 2 |} in
  let w := calm "openai" in
  let out := run (deleteConversation w req) sample_store in
  conversations sample_store !! 2 = Some alices_conversation
  /\ c_userId alices_conversation = 10
  /\ db_fault w (Conversation_findOneAndDelete 2 10) = None
  /\ fst out = inr (ok (Deleted (lit "Conversation deleted successfully")))
  /\ conversations (store (snd out)) !! 2 = None
  /\ conversations (store (snd out)) !! 1 = conversations sample_store !! 1
  /\ fst (run (getConversationById w req) (store (snd out)))
     = inr (fail 404 "Conversation not found")
  /\ fst (run (deleteConversation w req) (store (snd out)))
     = inr (fail 404 "Conversation not found").
Proof.
  intros req w out.
  assert (conversations sample_store !! 2 = Some alices_conversation) as Hc
    by (vm_compute; reflexivity).
  destruct (deleteConversation_removes_own w req sample_store alices_conversation
              Hc eq_refl eq_refl)
    as (Hresp & _ & Hgone & Hothers & Hread & Hagain & _).
  split_and!;
    [ exact Hc | reflexivity | reflexivity | exact Hresp | exact Hgone
    | | exact (Hread eq_refl) | exact Hagain ].
  apply Hothers. discriminate.
Defined.

Lemma getEntrySuggestions_access_witness :
  let req := {| id_user := bob; param_id := 1 |} in
  let out := run (getEntrySuggestions (controller_of "openai") (calm "openai") req)
               sample_store in
  let r := ok (SuggestionsData 1 (lit "Coffee ceremony") (Str (lit "An answer.")) 7) in
  out = (inr r, snd out)
  /\ status r = 200
  /\ exists entry,
       Entry.lookup 1 sample_store = Some entry
       /\ canAccess bob (e_author entry) entry = true
       /\ (status r = 200 ->
           exists suggestions,
             body r = SuggestionsData 1 (e_title entry) suggestions 7).
Proof.
  intros req out r.
  assert (out = (inr r, snd out)) as Hrun by (vm_compute; reflexivity).
  split_and!; [exact Hrun|reflexivity|].
  exact (getEntrySuggestions_access (controller_of "openai") (calm "openai") req
           sample_store r (snd out) Hrun (or_introl eq_refl)).
Defined.

Lemma analyzeCulturalSignificance_access_witness :
  let req := {| id_user := bob; param_id := 1 |} in
  let out := run (analyzeCulturalSignificance (controller_of "openai")
                    (calm "openai") req) sample_store in
  let r := ok (AnalysisData 1 (lit "Coffee ceremony") (Str (lit "An answer.")) 7) in
  out = (inr r, snd out)
  /\ status r = 200
  /\ exists entry author,
       Entry.lookup 1 sample_store = Some entry
       /\ List.find (fun u => bool_decide (u_id u = e_author entry))
            (users sample_store) = Some author
       /\ canAccess bob (u_id author) entry = true
       /\ (status r = 200 ->
           exists analysis, body r = AnalysisData 1 (e_title entry) analysis 7).
Proof.
  intros req out r.
  assert (out = (inr r, snd out)) as Hrun by (vm_compute; reflexivity).
  split_and!; [exact Hrun|reflexivity|].
  exact (analyzeCulturalSignificance_access (controller_of "openai")
           (calm "openai") req sample_store r (snd out) Hrun (or_introl eq_refl)).
Defined.

Lemma analyzeCulturalSignificance_needs_author_witness :
  let req := {| id_user := carol_admin; param_id := 5 |} in
  let w := calm "openai" in
  let out := run (analyzeCulturalSignificance (controller_of "openai") w req)
               orphaned_store in
  Entry.lookup 5 orphaned_store = Some (an_entry 5 77 published true)
  /\ List.find (fun u => bool_decide (u_id u = 77)) (users orphaned_store) = None
  /\ db_fault w (Entry_findById 5 true) = None
  /\ is_admin carol_admin = true
  /\ fst out
     = inr (fail 500 "Internal server error while analyzing cultural significance")
  /\ calls (snd out) = [].
Proof.
  intros req w out.
  destruct (analyzeCulturalSignificance_needs_author (controller_of "openai") w req
              orphaned_store (an_entry 5 77 published true) eq_refl eq_refl eq_refl)
    as (Hresp & Hcalls & _).
  split_and!; [reflexivity|reflexivity|reflexivity|reflexivity|exact Hresp|exact Hcalls].
Defined.

Lemma client_matches_branch_witness :
  let w := calm "openai" in
  let st := initial sample_store in
  aiService (new_AIController (env w) sdk_ok) = Some OpenAI
  /\ (exists call,
        call_vendor call = OpenAI
        /\ askDispatch w OpenAI (lit "Q?") 1000 (7 # 10)%Q st
           = (generate w call,
              {| store := store st; trace := trace st;
                 calls := calls st ++ [call]; console := console st |}))
  /\ (exists call,
        call_vendor call = OpenAI
        /\ generateText w OpenAI "gpt-3.5-turbo" (lit "S") (lit "P") 200
             (5 # 10)%Q st
           = (generate w call,
              {| store := store st; trace := trace st;
                 calls := calls st ++ [call]; console := console st |})).
Proof.
  intros w st.
  destruct (client_matches_branch w sdk_ok OpenAI eq_refl) as (Hask & Htext).
  split_and!; [reflexivity| |].
  - destruct (Hask (lit "Q?") 1000%Z (7 # 10)%Q st) as [(Hname & _)|Hcall];
      [exfalso; apply Hname; reflexivity|exact Hcall].
  - destruct (Htext "gpt-3.5-turbo"%string (lit "S") (lit "P") 200%Z (5 # 10)%Q st)
      as [(Hname & _)|Hcall];
      [exfalso; apply Hname; reflexivity|exact Hcall].
Defined.

Lemma askQuestion_without_branch_witness :
  let w := calm "OpenAI" in
  let this := controller_of "OpenAI" in
  let req := ask alice "Q?" None false in
  let out := run (askQuestion this w req) sample_store in
  aiService this = Some OpenAI
  /\ provider_name (env w) = lit "OpenAI"
  /\ calls (snd out) = []
  /\ fst out = inr (ok (AskData (lit "Q?") Undefined 3 7 (lit "OpenAI") (lit "default")))
  /\ conversations (store (snd out)) !! 3
     = Some (started w req Undefined).
Proof.
  intros w this req out.
  assert (provider_name (env w) <> lit "openai") as H1 by (vm_compute; discriminate).
  assert (provider_name (env w) <> lit "anthropic") as H2 by (vm_compute; discriminate).
  assert (provider_name (env w) <> lit "google") as H3 by (vm_compute; discriminate).
  destruct (askQuestion_without_branch this w req sample_store H1 H2 H3)
    as (Hcalls & Hanswer).
  assert (fst out = inr (ok (AskData (lit "Q?") Undefined 3 7 (lit "OpenAI")
                               (lit "default")))) as Hresp
    by (vm_compute; reflexivity).
  destruct (Hanswer _ Hresp eq_refl) as (_ & Hstore).
  split_and!; [reflexivity|reflexivity|exact Hcalls|exact Hresp|].
  unfold out. rewrite Hstore. vm_compute. reflexivity.
Defined.

Lemma status_names_no_default_witness :
  let w := unset_world None in
  let this := new_AIController env_unset sdk_ok in
  truthy (AI_PROVIDER env_unset) = false
  /\ sdk_ok OpenAI = None
  /\ aiService this = Some OpenAI
  /\ exists model features,
       fst (run (getServiceStatus this w) sample_store)
       = inr (ok (StatusData true (lit "none") model features))
  /\ exists answer id,
       fst (run (askQuestion this w (ask alice "Q?" None false)) sample_store)
       = inr (ok (AskData (lit "Q?") answer id 9 (lit "openai") (lit "default"))).
Proof.
  intros w this.
  destruct (status_names_no_default env_unset sdk_ok w sample_store
              eq_refl eq_refl eq_refl) as (Hclient & _ & Hstatus).
  split_and!; [reflexivity|reflexivity|exact Hclient|].
  eexists _, _. split.
  - unfold this. rewrite Hstatus. reflexivity.
  - eexists _, _. vm_compute. reflexivity.
Defined.

Lemma entry_handlers_without_branch_witness :
  let w := calm "google" in
  let this := controller_of "google" in
  let req := {| id_user := alice; param_id := 1 |} in
  aiService this = Some GoogleGenerativeAI
  /\ Entry.lookup 1 sample_store = Some (an_entry 1 10 published true)
  /\ fst (run (getEntrySuggestions this w req) sample_store)
     = inr (ok (SuggestionsData 1 (lit "Coffee ceremony") Undefined 7))
  /\ fst (run (analyzeCulturalSignificance this w req) sample_store)
     = inr (ok (AnalysisData 1 (lit "Coffee ceremony") Undefined 7)).
Proof.
  intros w this req.
  assert (provider_name (env w) <> lit "openai") as H1 by (vm_compute; discriminate).
  assert (provider_name (env w) <> lit "anthropic") as H2 by (vm_compute; discriminate).
  destruct (entry_handlers_without_branch this w req sample_store
              GoogleGenerativeAI (an_entry 1 10 published true) H1 H2
              eq_refl eq_refl) as (Hsuggest & Hanalyze).
  split_and!; [reflexivity|reflexivity| |].
  - by rewrite (Hsuggest eq_refl eq_refl).
  - by rewrite (Hanalyze {| u_id := 10; u_username := lit "alice" |}
                  eq_refl eq_refl eq_refl).
Defined.

Lemma generateTags_flattens_errors_witness :
  let e := a_failure (Some "insufficient_quota"%string) (Some 429%N) in
  let w := troubled "openai" (fun _ => false) (Some e) in
  let this := controller_of "openai" in
  let out := run (generateTags this w tags_request) sample_store in
  tags_errors tags_request = []
  /\ aiService this = Some OpenAI
  /\ (forall call, generate w call = inl e)
  /\ fst out = inr (fail 500 "Internal server error while generating tags")
  /\ status (askQuestion_error (env w) e) = 503.
Proof.
  intros e w this out.
  assert (forall call, generate w call = inl e) as Hrefuse by reflexivity.
  destruct (generateTags_flattens_errors this w tags_request sample_store OpenAI e
              eq_refl eq_refl Hrefuse) as (Hresp & _).
  split_and!; [reflexivity|reflexivity|exact Hrefuse|exact Hresp|reflexivity].
Defined.

Lemma response_names_first_model_set_witness :
  let w := two_models in
  let this := new_AIController env_two_models sdk_ok in
  let req := ask alice "Q?" None false in
  let out := run (askQuestion this w req) sample_store in
  let r := ok (AskData (lit "Q?") (Str (lit "An answer.")) 3 7 (lit "anthropic")
                 (lit "gpt-4o")) in
  out = (inr r, snd out)
  /\ status r = 200
  /\ provider_name (env w) = lit "anthropic"
  /\ OPENAI_MODEL (env w) = Some (lit "gpt-4o")
  /\ (exists answer id,
        body r = AskData (lit "Q?") answer id 7 (lit "anthropic") (lit "gpt-4o"))
  /\ length (calls (snd out)) = 1
  /\ Forall (fun call => call_model call = lit "claude-3-sonnet-20240229")
       (calls (snd out)).
Proof.
  intros w this req out r.
  assert (out = (inr r, snd out)) as Hrun by (vm_compute; reflexivity).
  assert (lit "gpt-4o" <> []) as Hm by discriminate.
  destruct (response_names_first_model_set this w req sample_store r (snd out)
              Hrun) as (Hmodel & Hcalls).
  split_and!; [exact Hrun|reflexivity|reflexivity|reflexivity| |reflexivity|].
  - destruct (Hmodel eq_refl) as (answer & id & model & Hbody & Hopenai & _).
    rewrite (Hopenai (lit "gpt-4o") eq_refl Hm) in Hbody.
    exists answer, id. exact Hbody.
  - eapply Forall_impl; [exact Hcalls|].
    intros call [(Hname & _)|[(_ & Hcall)|(Hname & _)]];
      [discriminate Hname|exact Hcall|discriminate Hname].
Defined.

Lemma askQuestion_history_error_witness :
  let w := troubled "openai" is_findOne None in
  let this := controller_of "openai" in
  let req := ask alice "Q?" (Some 2) true in
  let e := a_failure None None in
  let out := run (askQuestion this w req) sample_store in
  ask_errors req = []
  /\ aiService this = Some OpenAI
  /\ conversationId req = Some 2
  /\ db_fault w (Conversation_findOne 2 10) = Some e
  /\ fst out = inr (askQuestion_error (env w) e)
  /\ status (askQuestion_error (env w) e) = 500
  /\ calls (snd out) = []
  /\ store (snd out) = sample_store.
Proof.
  intros w this req e out.
  destruct (askQuestion_history_error this w req sample_store OpenAI e 2
              eq_refl eq_refl eq_refl eq_refl) as (Hresp & Hcalls & Hstore & _).
  split_and!;
    [ reflexivity | reflexivity | reflexivity | reflexivity | exact Hresp
    | reflexivity | exact Hcalls | exact Hstore ].
Defined.
